(** * Monotone conjugation method: a shallow embedding of [mon_conj_method.py]

  The program reads paired samples [(x, y)], ranks the [y] values in the
  order of ascending [x], and compares the rank sums of the first and the
  last third of the points.

  Numbers.  The samples are finite doubles; every finite double is a
  rational number and comparison, negation, the half-integer ranks and
  their sums are exact on them, so samples and ranks are modelled in [Q].
  The three places where the source rounds ([round (N / 3)],
  [round (std)], [round (conj_rate, 2)]) are modelled by the exact
  round-half-to-even of the exact quantity; a double computation can
  land on the other side only when the exact quantity is within a few
  units in the last place of a tie.  [nan] and the infinities are not
  represented.

  Text.  A file is modelled by the characters Python reads from it.
  Decoding, which fails on bytes that are no text in the encoding in
  use, is not modelled, and the blanks are those of ASCII: the model is
  that of files of ASCII characters.

  Libraries.  [np.argsort] enters through its documented contract (a
  parameter of the program), [rankdata] and the Python primitives
  through definitions that follow their documented behaviour. *)

From Stdlib Require Import String Ascii.
From Stdlib Require Import ZArith QArith Qround Qabs Lia Lqa.
From Stdlib Require Import DecimalString DecimalPos DecimalZ.
From Stdlib Require Import List Bool.
From Stdlib Require Import Permutation Sorted.
Import ListNotations.

Local Open Scope string_scope.
Local Open Scope list_scope.
Local Open Scope Z_scope.

(** ** Python values and exceptions *)

Module Py.

(** The exceptions the program can raise. *)
Inductive exn : Type :=
| ValueError (msg : string)
| IndexError (msg : string)
| OSError (path : string).

(** A computation either raises ([inl]) or returns ([inr]). *)
Definition result (A : Type) : Type := (exn + A)%type.

Definition ret {A : Type} (a : A) : result A := inr a.
Definition raise {A : Type} (e : exn) : result A := inl e.

Definition bind {A B : Type} (m : result A) (k : A -> result B) : result B :=
  match m with
  | inl e => inl e
  | inr a => k a
  end.

(** [len(l)] *)
Definition len {A : Type} (l : list A) : Z := Z.of_nat (length l).

(** [l[:stop]] *)
Definition slice_upto {A : Type} (l : list A) (stop : Z) : list A :=
  if stop <? 0 then firstn (Z.to_nat (len l + stop)) l
  else firstn (Z.to_nat stop) l.

(** [l[start:]] *)
Definition slice_from {A : Type} (l : list A) (start : Z) : list A :=
  if start <? 0 then skipn (Z.to_nat (len l + start)) l
  else skipn (Z.to_nat start) l.

(** [sum(l)]: starts from [0] and adds from the left. *)
Definition sum (l : list Q) : Q := fold_left Qplus l 0%Q.

(** [int(q)]: truncation toward zero. *)
Definition int (q : Q) : Z := Z.quot (Qnum q) (Zpos (Qden q)).

(** [round(q)]: the nearest integer, a tie going to the even one. *)
Definition round (q : Q) : Z :=
  let f := Qfloor q in
  match Qcompare (q - inject_Z f) (1 # 2) with
  | Lt => f
  | Gt => f + 1
  | Eq => if Z.even f then f else f + 1
  end.

(** The nearest integer to the square root of [q] (for [0 <= q]), a tie
    going to the even one.  [Z.sqrt (Qfloor (4 * q))] is the integer part
    of twice the root; the root is a half-integer exactly when that
    number is odd and its square is [4 * q]. *)
Definition round_sqrt (q : Q) : Z :=
  let m := Z.sqrt (Qfloor (4 * q)) in
  if Z.odd m && Qeq_bool (4 * q) (inject_Z (m * m)) then
    if Z.even (m / 2) then m / 2 else m / 2 + 1
  else (m + 1) / 2.

(** [round(a * sqrt(q))] for [0 <= a]. *)
Definition round_mul_sqrt (a q : Q) : Z := round_sqrt (a * a * q).

(** [str(z)] for a Python [int]. *)
Definition str_int (z : Z) : string := NilZero.string_of_int (Z.to_int z).

Definition newline : ascii := ascii_of_nat 10.

Definition backslash : ascii := ascii_of_nat 92.
Definition single_quote : ascii := ascii_of_nat 39.
Definition double_quote : ascii := ascii_of_nat 34.

Fixpoint contains (c : ascii) (s : string) : bool :=
  match s with
  | EmptyString => false
  | String c' s' => Ascii.eqb c c' || contains c s'
  end.

Definition hex_digit (n : nat) : ascii :=
  ascii_of_nat (if (n <? 10)%nat then 48 + n else 87 + n).

(** One character of [repr(s)] for a string of ASCII characters: the
    quote and the backslash get a backslash in front, tab, newline and
    carriage return their letter, the other control characters their
    code in hexadecimal. *)
Definition repr_char (quote c : ascii) : string :=
  let n := nat_of_ascii c in
  if Ascii.eqb c quote || Ascii.eqb c backslash
  then String backslash (String c EmptyString)
  else if (n =? 9)%nat then String backslash "t"
  else if (n =? 10)%nat then String backslash "n"
  else if (n =? 13)%nat then String backslash "r"
  else if (n <? 32)%nat || (n =? 127)%nat
  then String backslash
         (String "x" (String (hex_digit (n / 16))
                        (String (hex_digit (n mod 16)) EmptyString)))
  else String c EmptyString.

Fixpoint repr_from (quote : ascii) (s : string) : string :=
  match s with
  | EmptyString => String quote EmptyString
  | String c s' => repr_char quote c ++ repr_from quote s'
  end.

(** [repr(s)]: single quotes around the string, double quotes when it
    holds a single quote and no double one. *)
Definition repr (s : string) : string :=
  let quote :=
    if contains single_quote s && negb (contains double_quote s)
    then double_quote else single_quote in
  String quote (repr_from quote s).

(** The characters [str.split()] and [str.strip()] treat as blank. *)
Definition is_space (c : ascii) : bool :=
  let n := nat_of_ascii c in
  (n =? 32)%nat || ((9 <=? n)%nat && (n <=? 13)%nat)
  || ((28 <=? n)%nat && (n <=? 31)%nat).

Definition carriage_return : ascii := ascii_of_nat 13.

(** [for line in file], the file opened in text mode: the pieces of the
    content that end in a line end, and what follows the last line end
    when that is not empty.  A line end is a newline, a carriage return,
    or a carriage return and a newline; each reaches the program as one
    newline.  [cur] holds the characters of the current line in reverse,
    [after_cr] tells that the last character was a carriage return. *)
Fixpoint lines_from (after_cr : bool) (cur : list ascii) (s : string)
  : list string :=
  match s with
  | EmptyString =>
      match cur with
      | [] => []
      | _ => [string_of_list_ascii (rev cur)]
      end
  | String c s' =>
      if Ascii.eqb c newline then
        if after_cr then lines_from false cur s'
        else string_of_list_ascii (rev (newline :: cur))
               :: lines_from false [] s'
      else if Ascii.eqb c carriage_return then
        string_of_list_ascii (rev (newline :: cur)) :: lines_from true [] s'
      else lines_from false (c :: cur) s'
  end.

Definition lines (s : string) : list string := lines_from false [] s.

(** [s.split()]: the maximal runs of characters that are not blank. *)
Fixpoint split_from (cur : list ascii) (s : string) : list string :=
  match s with
  | EmptyString =>
      match cur with
      | [] => []
      | _ => [string_of_list_ascii (rev cur)]
      end
  | String c s' =>
      if is_space c
      then match cur with
           | [] => split_from [] s'
           | _ => string_of_list_ascii (rev cur) :: split_from [] s'
           end
      else split_from (c :: cur) s'
  end.

Definition split (s : string) : list string := split_from [] s.

(** [s.strip()] *)
Fixpoint lstrip (s : string) : string :=
  match s with
  | EmptyString => EmptyString
  | String c s' => if is_space c then lstrip s' else s
  end.

Definition rstrip (s : string) : string :=
  string_of_list_ascii
    (rev (list_ascii_of_string
            (lstrip (string_of_list_ascii (rev (list_ascii_of_string s)))))).

Definition strip (s : string) : string := rstrip (lstrip s).

(** [sep.join(l)] *)
Fixpoint join (sep : string) (l : list string) : string :=
  match l with
  | [] => EmptyString
  | [s] => s
  | s :: l' => s ++ sep ++ join sep l'
  end.

End Py.

Notation "x <- m ;; k" := (Py.bind m (fun x => k))
  (at level 61, m at next level, right associativity).

(** ** NumPy and SciPy primitives *)

Module NumPy.

Definition out_of_bounds (i : nat) (size : Z) : string :=
  "index " ++ Py.str_int (Z.of_nat i)
  ++ " is out of bounds for axis 0 with size " ++ Py.str_int size.

(** [a[idx]] with an integer index array: every index must be in range,
    and the first that is not is reported. *)
Fixpoint take (a : list Q) (idx : list nat) : Py.result (list Q) :=
  match idx with
  | [] => Py.ret []
  | i :: idx' =>
      match nth_error a i with
      | None => Py.raise (Py.IndexError (out_of_bounds i (Py.len a)))
      | Some v => vs <- take a idx' ;; Py.ret (v :: vs)
      end
  end.

(** What [np.argsort(xs)] promises with its default [kind]: the indices
    [0 .. len(xs) - 1], each once, in an order along which [xs] does not
    decrease.  The default kind is documented as not stable, so the
    order among equal elements is left open. *)
Definition sorts (xs : list Q) (idx : list nat) : Prop :=
  Permutation idx (seq 0 (length xs)) /\
  StronglySorted (fun i j => (nth i xs 0 <= nth j xs 0)%Q) idx.

Definition argsort_contract (argsort : list Q -> list nat) : Prop :=
  forall xs, sorts xs (argsort xs).

(** A double that is a multiple of [0.01]: its sign and the count of
    hundredths.  The sign is kept apart because IEEE has a negative
    zero, which prints as [-0.0]. *)
Record float2 : Type := Float2 { f2_neg : bool; f2_hundredths : Z }.

Definition float2_Q (r : float2) : Q :=
  if f2_neg r then (- f2_hundredths r # 100)%Q else (f2_hundredths r # 100)%Q.

(** [round(q, 2)] on a NumPy double: [rint(q * 100) / 100]. *)
Definition round2 (q : Q) : float2 :=
  Float2 (negb (Qle_bool 0 q)) (Z.abs (Py.round (q * 100))).

(** [str(r)]: the shortest decimal that reads back as the same double,
    with at least one digit after the point. *)
Definition str_float2 (r : float2) : string :=
  let h := f2_hundredths r in
  ((if f2_neg r then "-" else "")
   ++ Py.str_int (h / 100)%Z ++ "."
   ++ Py.str_int ((h / 10) mod 10)%Z
   ++ (if Z.eqb (h mod 10)%Z 0%Z then "" else Py.str_int (h mod 10)%Z))%string.

End NumPy.

Module SciPy.

Definition Qlt_bool (x y : Q) : bool := negb (Qle_bool y x).

(** How many elements of [l] satisfy [f]. *)
Fixpoint count (f : Q -> bool) (l : list Q) : Z :=
  match l with
  | [] => 0
  | w :: l' => (if f w then 1 else 0) + count f l'
  end.

(** Twice the rank of [v] in [a].  In the sorted array the elements equal
    to [v] occupy the positions [lt + 1 .. le], where [lt] elements are
    smaller and [le] are smaller or equal; SciPy's average method
    returns [0.5 * (lt + le + 1)]. *)
Definition rank2 (a : list Q) (v : Q) : Z :=
  count (fun w => Qlt_bool w v) a + count (fun w => Qle_bool w v) a + 1.

(** [rankdata(a)] with the default [method='average']. *)
Definition rankdata (a : list Q) : list Q :=
  map (fun v => (rank2 a v # 2)%Q) a.

End SciPy.

(** ** The program *)

Section Program.

(** [np.argsort], known through its contract only. *)
Variable argsort : list Q -> list nat.

Definition get_ranks (xs ys : list Q) : Py.result (list Q) :=
  let sorted_idx := argsort xs in
  xs' <- NumPy.take xs sorted_idx ;;
  ys' <- NumPy.take ys sorted_idx ;;
  Py.ret (SciPy.rankdata (map Qopp ys')).

Definition too_few_points : string :=
  "Number of points must be not less than 9".

(** [conj_rate = (R1 - R2) / (p * (N - p))] *)
Definition conj_rate (R1 R2 : Q) (p N : Z) : Q :=
  ((R1 - R2) / inject_Z (p * (N - p)))%Q.

Definition check_mon_conj (xs ys : list Q)
  : Py.result (Z * Z * NumPy.float2) :=
  let N := Py.len xs in
  if N <? 9 then Py.raise (Py.ValueError too_few_points)
  else
    let p := Py.round (inject_Z N / 3) in
    ranks <- get_ranks xs ys ;;
    let R1 := Py.sum (Py.slice_upto ranks p) in
    let R2 := Py.sum (Py.slice_from ranks (- p)) in
    let std := Py.round_mul_sqrt (inject_Z N + (1 # 2)) (inject_Z p / 6) in
    Py.ret (Py.int (R1 - R2), std, NumPy.round2 (conj_rate R1 R2 p N)).

(** The two quantities [R1 - R2] and [conj_rate] of a run of
    [check_mon_conj], as they are before [int] and [round] are applied
    (see [check_mon_conj_raw]). *)
Definition raw_indicators (xs ys : list Q) : Py.result (Q * Q) :=
  let N := Py.len xs in
  let p := Py.round (inject_Z N / 3) in
  ranks <- get_ranks xs ys ;;
  let R1 := Py.sum (Py.slice_upto ranks p) in
  let R2 := Py.sum (Py.slice_from ranks (- p)) in
  Py.ret ((R1 - R2)%Q, conj_rate R1 R2 p N).

(** The files of the machine: the content stored under each path, and
    the paths that can be opened for writing. *)
Record files : Type := Files {
  content_of : string -> option string;
  can_write : string -> bool
}.

Definition write_file (fs : files) (path content : string) : files :=
  Files (fun q => if String.eqb q path then Some content else content_of fs q)
        (can_write fs).

(** A command runs on the files and raises or returns, leaving the files
    as they are after it. *)
Definition io (A : Type) : Type := files -> Py.result A * files.

Definition io_ret {A : Type} (a : A) : io A := fun fs => (inr a, fs).

Definition io_bind {A B : Type} (m : io A) (k : A -> io B) : io B :=
  fun fs =>
    match m fs with
    | (inl e, fs') => (inl e, fs')
    | (inr a, fs') => k a fs'
    end.

Definition io_lift {A : Type} (r : Py.result A) : io A := fun fs => (r, fs).

(** [float(s)]: [None] when Python raises [ValueError], the number read
    otherwise.  ([float] also reads [nan] and the infinities, which have
    no counterpart in [Q].) *)
Variable py_float : string -> option Q.

Fixpoint map_float (toks : list string) : Py.result (list Q) :=
  match toks with
  | [] => Py.ret []
  | t :: toks' =>
      match py_float t with
      | None =>
          Py.raise (Py.ValueError
                      ("could not convert string to float: " ++ Py.repr t))
      | Some v => vs <- map_float toks' ;; Py.ret (v :: vs)
      end
  end.

(** [x, y = tuple(map(float, line.strip().split()))] *)
Definition parse_line (line : string) : Py.result (Q * Q) :=
  vs <- map_float (Py.split (Py.strip line)) ;;
  match vs with
  | [x; y] => Py.ret (x, y)
  | [] =>
      Py.raise (Py.ValueError "not enough values to unpack (expected 2, got 0)")
  | [_] =>
      Py.raise (Py.ValueError "not enough values to unpack (expected 2, got 1)")
  | _ => Py.raise (Py.ValueError "too many values to unpack (expected 2)")
  end.

Fixpoint read_lines (ls : list string) (xs ys : list Q)
  : Py.result (list Q * list Q) :=
  match ls with
  | [] => Py.ret (xs, ys)
  | line :: ls' =>
      xy <- parse_line line ;;
      read_lines ls' (xs ++ [fst xy]) (ys ++ [snd xy])
  end.

Definition read_data (in_path : string) : io (list Q * list Q) :=
  fun fs =>
    match content_of fs in_path with
    | None => (Py.raise (Py.OSError in_path), fs)
    | Some content => (read_lines (Py.lines content) [] [], fs)
    end.

(** [" ".join(map(str, result)) + "\n"] *)
Definition result_line (result : Z * Z * NumPy.float2) : string :=
  let '(d, s, r) := result in
  (Py.join " " [Py.str_int d; Py.str_int s; NumPy.str_float2 r]
   ++ String Py.newline "")%string.

Definition save_result (result : Z * Z * NumPy.float2) (out_path : string)
  : io unit :=
  fun fs =>
    if can_write fs out_path
    then (Py.ret tt, write_file fs out_path (result_line result))
    else (Py.raise (Py.OSError out_path), fs).

Definition main (in_path out_path : string) : io unit :=
  io_bind (read_data in_path) (fun d =>
  io_bind (io_lift (check_mon_conj (fst d) (snd d))) (fun results =>
  save_result results out_path)).

End Program.

(** ** Two index sorts that meet the contract of [np.argsort]

    Both insert the indices one by one, starting from the last.  With
    [strict = false] an index goes in front of the indices of equal
    elements, which keeps equal elements in their input order (a stable
    sort); with [strict = true] it goes behind them, which reverses
    them. *)
Fixpoint insert_idx (strict : bool) (xs : list Q) (i : nat) (idx : list nat)
  : list nat :=
  match idx with
  | [] => [i]
  | j :: idx' =>
      if (if strict then SciPy.Qlt_bool (nth i xs 0%Q) (nth j xs 0%Q)
          else Qle_bool (nth i xs 0%Q) (nth j xs 0%Q))
      then i :: j :: idx'
      else j :: insert_idx strict xs i idx'
  end.

Definition insertion_argsort (strict : bool) (xs : list Q) : list nat :=
  fold_right (insert_idx strict xs) [] (seq 0 (length xs)).

(** A reader of unsigned decimal integers, enough to run [main] on. *)
Definition digits_float (s : string) : option Q :=
  match NilEmpty.uint_of_string s with
  | Some d => Some (inject_Z (Z.of_uint d))
  | None => None
  end.

(** ** The scenarios of the specification *)

Definition qs (l : list Z) : list Q := map inject_Z l.

Definition xs9 : list Q := qs [1;2;3;4;5;6;7;8;9].
Definition ys_decreasing : list Q := qs [9;8;7;6;5;4;3;2;1].
Definition ys_increasing : list Q := qs [1;2;3;4;5;6;7;8;9].
Definition ys_tied : list Q := qs [9;8;7;7;5;4;3;2;1].

Definition nl : string := String Py.newline "".

(** A machine whose file [in.txt] holds the given lines. *)
Definition files_with (ls : list string) : files :=
  Files (fun q => if String.eqb q "in.txt"
                  then Some (String.concat "" (map (fun l => (l ++ nl)%string) ls))
                  else None)
        (fun q => String.eqb q "out.txt").

Definition lines_decreasing : list string :=
  ["1 9"; "2 8"; " 3  7 "; "4 6"; "5 5"; "6 4"; "7 3"; "8 2"; "9 1"].

Definition lines_eight : list string :=
  ["1 8"; "2 7"; "3 6"; "4 5"; "5 4"; "6 3"; "7 2"; "8 1"].

(** ** Auxiliary notions used in the statements *)

(** The sum of [f v] over the elements [v] of [l]. *)
Fixpoint Zsum {A : Type} (f : A -> Z) (l : list A) : Z :=
  match l with
  | [] => 0
  | v :: l' => f v + Zsum f l'
  end.

(** The shape of printed numbers. *)
Definition is_digit (c : ascii) : bool :=
  let n := nat_of_ascii c in (48 <=? n)%nat && (n <=? 57)%nat.

Fixpoint all_digits (s : string) : bool :=
  match s with
  | EmptyString => true
  | String c s' => is_digit c && all_digits s'
  end.

(** An optional minus sign and one digit or more. *)
Definition is_int_literal (s : string) : bool :=
  match s with
  | EmptyString => false
  | String c s' =>
      if Ascii.eqb c "-"
      then negb (String.eqb s' "") && all_digits s'
      else all_digits s
  end.

(** Every character of [s] passes the test [P]. *)
Fixpoint every (P : ascii -> bool) (s : string) : bool :=
  match s with
  | EmptyString => true
  | String c s' => P c && every P s'
  end.

(** The characters of ASCII.  A file of such characters is the same text
    under every encoding Python opens text files with, and its blanks
    are those of [Py.is_space]. *)
Definition is_ascii (c : ascii) : bool := (nat_of_ascii c <? 128)%nat.

(** A numeral without its sign. *)
Definition unsigned (t : string) : string :=
  match t with
  | EmptyString => EmptyString
  | String c t' => if Ascii.eqb c "+" || Ascii.eqb c "-" then t' else t
  end.

Definition negative (t : string) : bool :=
  match t with
  | EmptyString => false
  | String c _ => Ascii.eqb c "-"
  end.

(** What stands in front of the first point of [s], and what stands
    behind it. *)
Fixpoint before_point (s : string) : string :=
  match s with
  | EmptyString => EmptyString
  | String c s' =>
      if Ascii.eqb c "." then EmptyString else String c (before_point s')
  end.

Fixpoint after_point (s : string) : string :=
  match s with
  | EmptyString => EmptyString
  | String c s' => if Ascii.eqb c "." then s' else after_point s'
  end.

(** A plain decimal numeral: an optional sign, then digits with at most
    one point among them, one digit at least. *)
Definition is_numeral (t : string) : bool :=
  let u := unsigned t in
  all_digits (before_point u) && all_digits (after_point u)
  && negb (String.eqb (before_point u ++ after_point u) "").

(** A numeral of at most 100 characters.  [float] reads it as a finite
    double: it is below 10^100 in size. *)
Definition short_numeral (t : string) : bool :=
  is_numeral t && (String.length t <=? 100)%nat.

(** The line [l] is made of two short numerals and blanks. *)
Definition numeral_line (l : string) : Prop :=
  exists t1 t2,
    Py.split l = [t1; t2] /\ short_numeral t1 = true /\ short_numeral t2 = true.

(** A reader of plain decimal numerals, with their exact value. *)
Definition decimal_float (t : string) : option Q :=
  if is_numeral t then
    let u := unsigned t in
    let m := match NilEmpty.uint_of_string (before_point u ++ after_point u) with
             | Some d => Z.of_uint d
             | None => 0
             end in
    let q := (inject_Z m
              / inject_Z (10 ^ Z.of_nat (String.length (after_point u))))%Q in
    Some (if negative t then (- q)%Q else q)
  else None.

Definition lines_decimal : list string :=
  ["0.5 -1"; "1 +2.25"; "1.5 3."; " 2  .5 "; "3 5"; "4 6"; "5 7"; "6 8"; "7 -9.75"].

(** The characters of printed numbers: digits, the minus sign, the point. *)
Definition is_number_char (c : ascii) : bool :=
  is_digit c || Ascii.eqb c "-" || Ascii.eqb c ".".

Definition is_line_end (c : ascii) : bool :=
  Ascii.eqb c Py.newline || Ascii.eqb c Py.carriage_return.

(** How many characters follow the decimal point. *)
Fixpoint decimals (s : string) : nat :=
  match s with
  | EmptyString => 0
  | String c s' => if Ascii.eqb c "." then String.length s' else decimals s'
  end.

(** What the elements of [l] add to twice the rank of [v]. *)
Definition pairs (v : Q) (l : list Q) : Z :=
  SciPy.count (fun w => SciPy.Qlt_bool w v) l
  + SciPy.count (fun w => Qle_bool w v) l.

(** Twice the sum of the ranks of the first [p] and of the last [p]
    elements of [a]. *)
Definition head2 (a : list Q) (p : Z) : Z :=
  Zsum (SciPy.rank2 a) (firstn (Z.to_nat p) a).

Definition tail2 (a : list Q) (p : Z) : Z :=
  Zsum (SciPy.rank2 a) (skipn (Z.to_nat (Py.len a - p)) a).

(** How many of [ys] are greater than [y], and how many are equal to it. *)
Definition greater (y : Q) (ys : list Q) : Z :=
  SciPy.count (fun w => SciPy.Qlt_bool y w) ys.

Definition tied (y : Q) (ys : list Q) : Z :=
  SciPy.count (fun w => Qeq_bool w y) ys.

(** The ranks [first, first + 1, ..., first + n - 1]. *)
Definition occupied (first n : Z) : list Q :=
  map (fun k => inject_Z (first + Z.of_nat k)) (seq 0 (Z.to_nat n)).

Definition mean (l : list Q) : Q := (Py.sum l / inject_Z (Py.len l))%Q.

(** [ys] read in the order [idx]. *)
Definition reorder (ys : list Q) (idx : list nat) : list Q :=
  map (fun i => nth i ys 0%Q) idx.

(** The array handed to [rankdata]: the negated [ys] in the order of
    ascending [xs]. *)
Definition ranked (argsort : list Q -> list nat) (xs ys : list Q) : list Q :=
  map Qopp (reorder ys (argsort xs)).

(** The order of the indices by the elements of [xs] they point at. *)
Definition by_value (xs : list Q) (i j : nat) : Prop :=
  (nth i xs 0 <= nth j xs 0)%Q.


Definition strictly_increasing (l : list Q) : Prop :=
  StronglySorted (fun a b => (a < b)%Q) l.

(** The line [l] holds the sample [xy]. *)
Definition holds (py_float : string -> option Q) (l : string) (xy : Q * Q)
  : Prop :=
  parse_line py_float l = inr xy.

(** A string of blanks only. *)
Definition blank (s : string) : bool := every Py.is_space s.

(** The integer a decimal numeral spells. *)
Definition read_int (s : string) : option Z :=
  match NilZero.int_of_string s with
  | Some d => Some (Z.of_int d)
  | None => None
  end.

(** No two pairs of [l] share their x. *)
Definition distinct_x (l : list (Q * Q)) : Prop :=
  ForallOrdPairs (fun a b => ~ (fst a == fst b)%Q) l.

(** ** Facts about the primitives *)

Lemma take_in_range (a : list Q) (idx : list nat) :
  Forall (fun i => (i < length a)%nat) idx ->
  NumPy.take a idx = inr (reorder a idx).
Proof.
  induction 1 as [| i idx Hi _ IH]; simpl; [reflexivity |].
  destruct (nth_error a i) as [v |] eqn:E.
  - rewrite IH. simpl. unfold Py.ret. do 2 f_equal.
    symmetry. now apply nth_error_nth.
  - apply nth_error_None in E. lia.
Qed.

Lemma take_out_of_range (a : list Q) (idx : list nat) :
  Exists (fun i => (length a <= i)%nat) idx ->
  exists msg, NumPy.take a idx = inl (Py.IndexError msg).
Proof.
  induction idx as [| i idx IH]; intros H; [inversion H |].
  simpl. destruct (nth_error a i) as [v |] eqn:E; [| eauto].
  inversion H as [? ? Hi | ? ? Ht]; subst.
  - assert (nth_error a i = None) by now apply nth_error_None.
    congruence.
  - destruct (IH Ht) as [msg ->]. simpl. eauto.
Qed.

Lemma sorts_range (xs : list Q) (idx : list nat) :
  NumPy.sorts xs idx -> Forall (fun i => (i < length xs)%nat) idx.
Proof.
  intros [HP _]. apply Forall_forall. intros i Hi.
  apply (Permutation_in _ HP) in Hi. apply in_seq in Hi. lia.
Qed.

Lemma sorts_length (xs : list Q) (idx : list nat) :
  NumPy.sorts xs idx -> length idx = length xs.
Proof.
  intros [HP _]. apply Permutation_length in HP. now rewrite length_seq in HP.
Qed.

Lemma sorts_last (xs : list Q) (idx : list nat) :
  NumPy.sorts xs idx -> (0 < length xs)%nat -> In (length xs - 1)%nat idx.
Proof.
  intros [HP _] Hn. apply (Permutation_in _ (Permutation_sym HP)).
  apply in_seq. lia.
Qed.

Lemma reorder_firstn (ys : list Q) (n : nat) (idx : list nat) :
  Forall (fun i => (i < n)%nat) idx ->
  reorder (firstn n ys) idx = reorder ys idx.
Proof.
  intros H. apply map_ext_in. intros i Hi.
  rewrite Forall_forall in H. specialize (H i Hi).
  rewrite nth_firstn. apply Nat.ltb_lt in H. now rewrite H.
Qed.

(** ** Sums *)

Lemma fold_left_Qplus_acc (l : list Q) (a : Q) :
  (fold_left Qplus l a == a + fold_left Qplus l 0)%Q.
Proof.
  revert a. induction l as [| v l IH]; intros a; simpl.
  - ring.
  - rewrite IH. rewrite (IH (0 + v)%Q). ring.
Qed.

Lemma sum_cons (v : Q) (l : list Q) : (Py.sum (v :: l) == v + Py.sum l)%Q.
Proof.
  unfold Py.sum. simpl. rewrite fold_left_Qplus_acc. ring.
Qed.

Lemma sum_half {A : Type} (f : A -> Z) (l : list A) :
  (Py.sum (map (fun v => f v # 2) l) == Zsum f l # 2)%Q.
Proof.
  induction l as [| v l IH].
  - reflexivity.
  - simpl map. rewrite sum_cons, IH. simpl Zsum.
    unfold Qeq, Qplus. simpl. lia.
Qed.

Lemma Zsum_app {A : Type} (f : A -> Z) (l1 l2 : list A) :
  Zsum f (l1 ++ l2) = Zsum f l1 + Zsum f l2.
Proof.
  induction l1 as [| v l1 IH]; simpl; lia.
Qed.

Lemma Zsum_ext {A : Type} (f g : A -> Z) (l : list A) :
  (forall v, In v l -> f v = g v) -> Zsum f l = Zsum g l.
Proof.
  induction l as [| v l IH]; intros H; simpl; [reflexivity |].
  rewrite (H v), IH; auto using in_eq, in_cons.
Qed.

Lemma Zsum_le {A : Type} (f g : A -> Z) (l : list A) :
  (forall v, f v <= g v) -> Zsum f l <= Zsum g l.
Proof.
  intros H. induction l as [| v l IH]; simpl; [lia |].
  specialize (H v). lia.
Qed.

Lemma Zsum_plus {A : Type} (f g : A -> Z) (l : list A) :
  Zsum (fun v => f v + g v) l = Zsum f l + Zsum g l.
Proof.
  induction l as [| v l IH]; simpl; lia.
Qed.

(** Twice the sum of [a, a + 1, ..., a + n - 1]. *)
Lemma Zsum_seq (a n : nat) :
  2 * Zsum Z.of_nat (seq a n)
  = Z.of_nat n * (2 * Z.of_nat a + Z.of_nat n - 1).
Proof.
  revert a. induction n as [| n IH]; intros a.
  - reflexivity.
  - cbn [seq Zsum]. specialize (IH (S a)). nia.
Qed.

Lemma Zsum_map {A B : Type} (f : B -> Z) (g : A -> B) (l : list A) :
  Zsum f (map g l) = Zsum (fun v => f (g v)) l.
Proof.
  induction l as [| v l IH]; simpl; congruence.
Qed.

(** ** Counting *)

Lemma count_app (f : Q -> bool) (l1 l2 : list Q) :
  SciPy.count f (l1 ++ l2) = SciPy.count f l1 + SciPy.count f l2.
Proof.
  induction l1 as [| v l1 IH]; simpl; lia.
Qed.

Lemma count_bounds (f : Q -> bool) (l : list Q) :
  0 <= SciPy.count f l <= Py.len l.
Proof.
  unfold Py.len. induction l as [| v l IH]; simpl length; simpl SciPy.count.
  - lia.
  - destruct (f v); lia.
Qed.

Lemma count_perm (f : Q -> bool) (l1 l2 : list Q) :
  Permutation l1 l2 -> SciPy.count f l1 = SciPy.count f l2.
Proof.
  induction 1; simpl; lia.
Qed.

Lemma pairs_app (v : Q) (l1 l2 : list Q) :
  pairs v (l1 ++ l2) = pairs v l1 + pairs v l2.
Proof.
  unfold pairs. rewrite !count_app. lia.
Qed.

Lemma pairs_nonneg (v : Q) (l : list Q) : 0 <= pairs v l.
Proof.
  unfold pairs.
  pose proof (count_bounds (fun w => SciPy.Qlt_bool w v) l).
  pose proof (count_bounds (fun w => Qle_bool w v) l). lia.
Qed.

Lemma rank2_pairs (a : list Q) (v : Q) : SciPy.rank2 a v = pairs v a + 1.
Proof. reflexivity. Qed.

(** Of two elements, one is counted twice for the other, or each once. *)
Lemma pairs_single (v w : Q) : pairs v [w] + pairs w [v] = 2.
Proof.
  unfold pairs, SciPy.Qlt_bool. simpl.
  destruct (Qle_bool v w), (Qle_bool w v); reflexivity.
Qed.

Lemma pairs_cons (v w : Q) (l : list Q) :
  pairs v (w :: l) = pairs v [w] + pairs v l.
Proof. apply (pairs_app v [w] l). Qed.

Lemma pairs_column (v : Q) (l : list Q) :
  pairs v l + Zsum (fun w => pairs w [v]) l = 2 * Py.len l.
Proof.
  unfold Py.len. induction l as [| w l IH].
  - reflexivity.
  - rewrite pairs_cons. cbn [Zsum length].
    pose proof (pairs_single v w). lia.
Qed.

Lemma pairs_total (l1 l2 : list Q) :
  Zsum (fun v => pairs v l2) l1 + Zsum (fun w => pairs w l1) l2
  = 2 * Py.len l1 * Py.len l2.
Proof.
  unfold Py.len. induction l1 as [| v l1 IH].
  - simpl. induction l2; simpl; lia.
  - cbn [Zsum length].
    rewrite (Zsum_ext (fun w => pairs w (v :: l1))
                      (fun w => pairs w [v] + pairs w l1))
      by (intros; apply pairs_cons).
    rewrite Zsum_plus.
    pose proof (pairs_column v l2) as HC. unfold Py.len in HC.
    rewrite Nat2Z.inj_succ. nia.
Qed.

Lemma Zsum_ones {A : Type} (l : list A) : Zsum (fun _ => 1) l = Py.len l.
Proof.
  unfold Py.len. induction l as [| v l IH]; cbn [Zsum length]; lia.
Qed.

(** The rank sum of SciPy's average method, doubled. *)
Lemma rank2_total (a : list Q) :
  Zsum (SciPy.rank2 a) a = Py.len a * (Py.len a + 1).
Proof.
  pose proof (pairs_total a a) as H.
  rewrite (Zsum_ext (SciPy.rank2 a) (fun v => pairs v a + (fun _ => 1) v))
    by (intros; apply rank2_pairs).
  rewrite Zsum_plus, Zsum_ones. nia.
Qed.

(** Ranks within a part of the array are not above the ranks in the
    whole. *)
Lemma rank2_part_l (l1 l2 : list Q) (v : Q) :
  SciPy.rank2 l1 v <= SciPy.rank2 (l1 ++ l2) v.
Proof.
  rewrite !rank2_pairs, pairs_app. pose proof (pairs_nonneg v l2). lia.
Qed.

Lemma rank2_part_r (l1 l2 : list Q) (v : Q) :
  SciPy.rank2 l2 v <= SciPy.rank2 (l1 ++ l2) v.
Proof.
  rewrite !rank2_pairs, pairs_app. pose proof (pairs_nonneg v l1). lia.
Qed.

(** Any [m] leading or trailing elements carry at least the ranks
    [1 .. m] and at most the ranks [n - m + 1 .. n]. *)
Lemma rank2_head_lower (l1 l2 : list Q) :
  Py.len l1 * (Py.len l1 + 1) <= Zsum (SciPy.rank2 (l1 ++ l2)) l1.
Proof.
  rewrite <- rank2_total. apply Zsum_le. intros v. apply rank2_part_l.
Qed.

Lemma rank2_tail_lower (l1 l2 : list Q) :
  Py.len l2 * (Py.len l2 + 1) <= Zsum (SciPy.rank2 (l1 ++ l2)) l2.
Proof.
  rewrite <- rank2_total. apply Zsum_le. intros v. apply rank2_part_r.
Qed.

Lemma len_app {A : Type} (l1 l2 : list A) :
  Py.len (l1 ++ l2) = Py.len l1 + Py.len l2.
Proof. unfold Py.len. rewrite length_app. lia. Qed.

Lemma rank2_head_upper (l1 l2 : list Q) :
  Zsum (SciPy.rank2 (l1 ++ l2)) l1
  <= Py.len l1 * (Py.len l1 + 1) + 2 * Py.len l1 * Py.len l2.
Proof.
  pose proof (rank2_total (l1 ++ l2)) as HT.
  rewrite Zsum_app, len_app in HT.
  pose proof (rank2_tail_lower l1 l2). nia.
Qed.

Lemma rank2_tail_upper (l1 l2 : list Q) :
  Zsum (SciPy.rank2 (l1 ++ l2)) l2
  <= Py.len l2 * (Py.len l2 + 1) + 2 * Py.len l1 * Py.len l2.
Proof.
  pose proof (rank2_total (l1 ++ l2)) as HT.
  rewrite Zsum_app, len_app in HT.
  pose proof (rank2_head_lower l1 l2). nia.
Qed.

(** ** Rounding and slicing *)

Lemma round_near (q : Q) :
  (inject_Z (Py.round q) - (1 # 2) <= q <= inject_Z (Py.round q) + (1 # 2))%Q.
Proof.
  unfold Py.round.
  pose proof (Qfloor_le q) as Hlo. pose proof (Qlt_floor q) as Hhi.
  rewrite inject_Z_plus in Hhi. change (inject_Z 1) with 1%Q in Hhi.
  destruct (Qcompare (q - inject_Z (Qfloor q)) (1 # 2)) eqn:E.
  - apply Qeq_alt in E.
    destruct (Z.even (Qfloor q)); rewrite ?inject_Z_plus;
      change (inject_Z 1) with 1%Q; lra.
  - apply Qlt_alt in E. lra.
  - apply Qgt_alt in E. rewrite inject_Z_plus.
    change (inject_Z 1) with 1%Q. lra.
Qed.

(** [round_sqrt q] is within one half of the square root of [q]: with
    [k] the result, [k - 1/2 <= sqrt q <= k + 1/2], written on the
    squares. *)
Lemma round_sqrt_near (q : Q) :
  (0 <= q)%Q ->
  let k := Py.round_sqrt q in
  0 <= k /\
  (4 * q <= inject_Z ((2 * k + 1) * (2 * k + 1)))%Q /\
  (1 <= k -> (inject_Z ((2 * k - 1) * (2 * k - 1)) <= 4 * q)%Q).
Proof.
  intros Hq. unfold Py.round_sqrt.
  set (F := Qfloor (4 * q)). set (m := Z.sqrt F).
  assert (0 <= F) as HF.
  { change 0 with (Qfloor 0). apply Qfloor_resp_le. lra. }
  pose proof (Z.sqrt_spec F HF) as [Hlo Hhi]. fold m in Hlo, Hhi.
  pose proof (Z.sqrt_nonneg F) as Hm. fold m in Hm.
  pose proof (Qfloor_le (4 * q)) as Q1. fold F in Q1.
  pose proof (Qlt_floor (4 * q)) as Q2. fold F in Q2.
  assert (inject_Z (m * m) <= 4 * q)%Q as B1.
  { apply Qle_trans with (inject_Z F); [| exact Q1].
    rewrite <- Zle_Qle. exact Hlo. }
  assert (4 * q < inject_Z ((m + 1) * (m + 1)))%Q as B2.
  { apply Qlt_le_trans with (inject_Z (F + 1)); [exact Q2 |].
    rewrite <- Zle_Qle. lia. }
  pose proof (Z.div_mod m 2 ltac:(lia)) as Em.
  pose proof (Z.mod_pos_bound m 2 ltac:(lia)) as Hr.
  pose proof (Z.div_mod (m + 1) 2 ltac:(lia)) as Em1.
  pose proof (Z.mod_pos_bound (m + 1) 2 ltac:(lia)) as Hr1.
  assert (forall a b, a <= b -> (inject_Z a <= inject_Z b)%Q) as mono
    by (intros a b Hab; now rewrite <- Zle_Qle).
  destruct (Z.odd m && Qeq_bool (4 * q) (inject_Z (m * m))) eqn:E.
  - apply andb_prop in E as [Eo Ee]. apply Qeq_bool_iff in Ee.
    apply Z.odd_spec in Eo. destruct Eo as [j Ej].
    assert (m / 2 = j) as Hj by lia. rewrite Hj.
    destruct (Z.even j); cbv zeta.
    + split; [lia |]. split.
      * rewrite Ee. apply mono. nia.
      * intros _. rewrite Ee. apply mono. nia.
    + split; [lia |]. split.
      * rewrite Ee. apply mono. nia.
      * intros _. rewrite Ee. apply mono. nia.
  - cbv zeta. split; [lia |]. split.
    + apply Qle_trans with (inject_Z ((m + 1) * (m + 1))); [lra |].
      apply mono. nia.
    + intros Hk. apply Qle_trans with (inject_Z (m * m)); [| exact B1].
      apply mono. nia.
Qed.

(** The partition size for [9 <= N]: at least 3, and the two groups do not
    overlap. *)
Lemma partition_size (N : Z) :
  9 <= N -> 3 <= Py.round (inject_Z N / 3) /\ 2 * Py.round (inject_Z N / 3) <= N.
Proof.
  intros HN. pose proof (round_near (inject_Z N / 3)) as [Hlo Hhi].
  set (p := Py.round (inject_Z N / 3)) in *.
  unfold Qdiv in Hlo, Hhi. change (/ 3)%Q with (1 # 3)%Q in Hlo, Hhi.
  rewrite Zle_Qle in HN. change (inject_Z 9) with 9%Q in HN.
  assert (inject_Z 2 < inject_Z p)%Q as H1
    by (change (inject_Z 2) with 2%Q; lra).
  assert (inject_Z (2 * p) <= inject_Z N)%Q as H2
    by (rewrite inject_Z_mult; change (inject_Z 2) with 2%Q; lra).
  rewrite <- Zlt_Qlt in H1. rewrite <- Zle_Qle in H2. lia.
Qed.

Lemma slice_upto_firstn {A : Type} (l : list A) (p : Z) :
  0 <= p -> Py.slice_upto l p = firstn (Z.to_nat p) l.
Proof.
  intros Hp. unfold Py.slice_upto.
  destruct (Z.ltb_spec p 0); [lia | reflexivity].
Qed.

Lemma slice_from_skipn {A : Type} (l : list A) (p : Z) :
  0 < p -> Py.slice_from l (- p) = skipn (Z.to_nat (Py.len l - p)) l.
Proof.
  intros Hp. unfold Py.slice_from.
  destruct (Z.ltb_spec (- p) 0); [reflexivity | lia].
Qed.

(** ** Runs of [get_ranks] and [check_mon_conj] *)

Section Runs.

Variable argsort : list Q -> list nat.
Hypothesis argsort_ok : NumPy.argsort_contract argsort.

Lemma get_ranks_ok (xs ys : list Q) :
  (length xs <= length ys)%nat ->
  get_ranks argsort xs ys = inr (SciPy.rankdata (ranked argsort xs ys)).
Proof.
  intros Hlen. unfold get_ranks.
  pose proof (sorts_range _ _ (argsort_ok xs)) as Hr.
  rewrite (take_in_range xs) by exact Hr. simpl.
  rewrite (take_in_range ys); [reflexivity |].
  eapply Forall_impl; [| exact Hr]. simpl. intros; lia.
Qed.

Lemma get_ranks_index_error (xs ys : list Q) :
  (length ys < length xs)%nat ->
  exists msg, get_ranks argsort xs ys = inl (Py.IndexError msg).
Proof.
  intros Hlen. unfold get_ranks.
  rewrite (take_in_range xs) by exact (sorts_range _ _ (argsort_ok xs)).
  simpl.
  destruct (take_out_of_range ys (argsort xs)) as [msg ->]; [| simpl; eauto].
  apply Exists_exists. exists (length xs - 1)%nat. split; [| lia].
  apply sorts_last; [apply argsort_ok | lia].
Qed.

Lemma ranked_length (xs ys : list Q) :
  length (ranked argsort xs ys) = length xs.
Proof.
  unfold ranked, reorder. rewrite !length_map.
  apply sorts_length, argsort_ok.
Qed.

Lemma ranked_firstn (xs ys : list Q) :
  ranked argsort xs (firstn (length xs) ys) = ranked argsort xs ys.
Proof.
  unfold ranked. f_equal. apply reorder_firstn.
  apply sorts_range, argsort_ok.
Qed.

End Runs.

(** [check_mon_conj] applies [int] and [round] to the raw indicators. *)
Lemma check_mon_conj_raw (argsort : list Q -> list nat) (xs ys : list Q) :
  9 <= Py.len xs ->
  check_mon_conj argsort xs ys =
  (i <- raw_indicators argsort xs ys ;;
   Py.ret (Py.int (fst i),
           Py.round_mul_sqrt (inject_Z (Py.len xs) + (1 # 2))
                             (inject_Z (Py.round (inject_Z (Py.len xs) / 3)) / 6),
           NumPy.round2 (snd i))).
Proof.
  intros HN. unfold check_mon_conj, raw_indicators.
  destruct (Z.ltb_spec (Py.len xs) 9); [lia |].
  destruct (get_ranks argsort xs ys); reflexivity.
Qed.

(** ** The insertion sorts meet the contract *)

Lemma insert_idx_perm (strict : bool) (xs : list Q) (i : nat) (idx : list nat) :
  Permutation (insert_idx strict xs i idx) (i :: idx).
Proof.
  induction idx as [| j idx IH]; simpl; [reflexivity |].
  match goal with |- context [if ?c then _ else _] => destruct c end.
  - reflexivity.
  - rewrite IH. apply perm_swap.
Qed.

Lemma insert_idx_test (strict : bool) (xs : list Q) (i j : nat) :
  if (if strict then SciPy.Qlt_bool (nth i xs 0%Q) (nth j xs 0%Q)
      else Qle_bool (nth i xs 0%Q) (nth j xs 0%Q))
  then by_value xs i j else by_value xs j i.
Proof.
  unfold by_value, SciPy.Qlt_bool. destruct strict.
  - destruct (Qle_bool (nth j xs 0%Q) (nth i xs 0%Q)) eqn:E; simpl.
    + now apply Qle_bool_iff.
    + apply Qlt_le_weak, Qnot_le_lt. intros H.
      apply Qle_bool_iff in H. congruence.
  - destruct (Qle_bool (nth i xs 0%Q) (nth j xs 0%Q)) eqn:E.
    + now apply Qle_bool_iff.
    + apply Qlt_le_weak, Qnot_le_lt. intros H.
      apply Qle_bool_iff in H. congruence.
Qed.

Lemma insert_idx_sorted (strict : bool) (xs : list Q) (i : nat)
    (idx : list nat) :
  StronglySorted (by_value xs) idx ->
  StronglySorted (by_value xs) (insert_idx strict xs i idx).
Proof.
  induction 1 as [| j idx Hs IH Hj]; simpl.
  - constructor; constructor.
  - pose proof (insert_idx_test strict xs i j) as Ht.
    match type of Ht with (if ?c then _ else _) => destruct c end.
    + constructor; [now constructor |].
      constructor; [exact Ht |].
      eapply Forall_impl; [| exact Hj].
      intros k Hk. unfold by_value in *. eapply Qle_trans; eassumption.
    + constructor; [exact IH |].
      eapply Permutation_Forall.
      * symmetry. apply insert_idx_perm.
      * now constructor.
Qed.

Lemma insertion_argsort_contract (strict : bool) :
  NumPy.argsort_contract (insertion_argsort strict).
Proof.
  intros xs. unfold insertion_argsort, NumPy.sorts.
  generalize (seq 0 (length xs)) as l. intros l.
  induction l as [| i l [HP HS]]; simpl.
  - split; constructor.
  - split.
    + rewrite insert_idx_perm. now constructor.
    + now apply insert_idx_sorted.
Qed.

(** ** On strictly increasing [xs] the contract leaves one order *)

Lemma sorted_perm_unique (l1 l2 : list nat) :
  StronglySorted le l1 -> StronglySorted le l2 -> Permutation l1 l2 ->
  l1 = l2.
Proof.
  intros H1. revert l2. induction H1 as [| a l1 Hs IH Ha]; intros l2 H2 HP.
  - now apply Permutation_nil in HP.
  - destruct H2 as [| b l2 Hs2 Hb].
    + apply Permutation_sym, Permutation_nil in HP. discriminate.
    + assert (a = b) as <-.
      { assert (In a (b :: l2)) as Hin1
          by (apply (Permutation_in _ HP), in_eq).
        assert (In b (a :: l1)) as Hin2
          by (apply (Permutation_in _ (Permutation_sym HP)), in_eq).
        rewrite Forall_forall in Ha, Hb.
        destruct Hin1 as [-> | Hin1]; [reflexivity |].
        destruct Hin2 as [-> | Hin2]; [reflexivity |].
        specialize (Ha _ Hin2). specialize (Hb _ Hin1). lia. }
      f_equal. apply IH; [exact Hs2 |].
      now apply Permutation_cons_inv in HP.
Qed.

Lemma increasing_nth (xs : list Q) :
  strictly_increasing xs ->
  forall i j, (i < j < length xs)%nat -> (nth i xs 0 < nth j xs 0)%Q.
Proof.
  induction 1 as [| a xs Hs IH Ha]; intros i j Hij; simpl in Hij; [lia |].
  destruct j as [| j]; [lia |]. simpl.
  destruct i as [| i].
  - rewrite Forall_forall in Ha. apply Ha, nth_In. lia.
  - apply IH. lia.
Qed.

Lemma seq_sorted (a n : nat) : StronglySorted le (seq a n).
Proof.
  revert a. induction n as [| n IH]; intros a; simpl; constructor.
  - apply IH.
  - apply Forall_forall. intros k Hk. apply in_seq in Hk. lia.
Qed.

Lemma sorts_increasing (xs : list Q) (idx : list nat) :
  strictly_increasing xs -> NumPy.sorts xs idx -> idx = seq 0 (length xs).
Proof.
  intros Hinc Hs. pose proof (sorts_range _ _ Hs) as Hr.
  destruct Hs as [HP HS].
  apply sorted_perm_unique; [| apply seq_sorted | exact HP].
  clear HP. induction HS as [| i idx HS IH Hi]; constructor.
  - apply IH. now inversion Hr.
  - inversion Hr as [| ? ? Hi_lt Hr']; subst.
    rewrite Forall_forall in *. intros j Hj.
    specialize (Hi j Hj). specialize (Hr' j Hj). simpl in Hi.
    destruct (Nat.le_gt_cases i j) as [| Hlt]; [assumption |].
    pose proof (increasing_nth xs Hinc j i ltac:(lia)). lra.
Qed.

(** ** Truncation *)

(** [int] drops the fraction: the result lies between zero and the
    argument, less than one away from the argument. *)
Lemma int_truncates (q : Q) :
  ((0 <= q -> inject_Z (Py.int q) <= q /\ q < inject_Z (Py.int q) + 1) /\
   (q <= 0 -> inject_Z (Py.int q) - 1 < q /\ q <= inject_Z (Py.int q)))%Q.
Proof.
  destruct q as [n d]. unfold Py.int. cbn [Qnum Qden].
  pose proof (Z.quot_rem' n (Zpos d)) as E.
  set (k := Z.quot n (Zpos d)) in *. set (r := Z.rem n (Zpos d)) in *.
  split; intros H.
  - assert (0 <= n) as Hn by (unfold Qle in H; simpl in H; lia).
    pose proof (Z.rem_bound_pos_pos n (Zpos d) ltac:(lia) Hn) as Hr.
    fold r in Hr.
    unfold Qle, Qlt, Qplus, inject_Z. cbn [Qnum Qden]. split; nia.
  - assert (n <= 0) as Hn by (unfold Qle in H; simpl in H; lia).
    pose proof (Z.rem_bound_pos_neg n (Zpos d) ltac:(lia) Hn) as Hr.
    fold r in Hr.
    unfold Qle, Qlt, Qminus, Qplus, Qopp, inject_Z. cbn [Qnum Qden].
    split; nia.
Qed.

Lemma xs9_increasing : strictly_increasing xs9.
Proof.
  unfold strictly_increasing, xs9, qs. simpl.
  repeat (constructor; [| repeat (constructor; [reflexivity |]); constructor]).
  constructor.
Qed.

Lemma argsort_xs9 (argsort : list Q -> list nat) :
  NumPy.argsort_contract argsort -> argsort xs9 = seq 0 9.
Proof.
  intros H. apply (sorts_increasing xs9 _ xs9_increasing (H xs9)).
Qed.

(** ** The raw indicators in terms of doubled rank sums *)

Lemma half_minus (h t : Z) : ((h # 2) - (t # 2) == (h - t) # 2)%Q.
Proof. unfold Qeq, Qminus, Qplus, Qopp. simpl. lia. Qed.

Lemma rankdata_len (a : list Q) : Py.len (SciPy.rankdata a) = Py.len a.
Proof. unfold Py.len, SciPy.rankdata. now rewrite length_map. Qed.

Lemma sum_head (a : list Q) (p : Z) :
  0 <= p ->
  (Py.sum (Py.slice_upto (SciPy.rankdata a) p) == head2 a p # 2)%Q.
Proof.
  intros Hp. rewrite slice_upto_firstn by exact Hp.
  unfold SciPy.rankdata, head2. rewrite firstn_map. apply sum_half.
Qed.

Lemma sum_tail (a : list Q) (p : Z) :
  0 < p ->
  (Py.sum (Py.slice_from (SciPy.rankdata a) (- p)) == tail2 a p # 2)%Q.
Proof.
  intros Hp. rewrite slice_from_skipn by exact Hp. rewrite rankdata_len.
  unfold SciPy.rankdata, tail2. rewrite skipn_map. apply sum_half.
Qed.

Lemma head2_bounds (a : list Q) (p : Z) :
  0 <= p <= Py.len a ->
  p * (p + 1) <= head2 a p <= p * (p + 1) + 2 * p * (Py.len a - p).
Proof.
  intros Hp. unfold head2.
  pose proof (firstn_skipn (Z.to_nat p) a) as E.
  set (l1 := firstn (Z.to_nat p) a) in *.
  set (l2 := skipn (Z.to_nat p) a) in *.
  assert (Py.len l1 = p) as H1.
  { unfold l1. unfold Py.len in *. rewrite length_firstn. lia. }
  pose proof (len_app l1 l2) as H2. rewrite E in H2.
  pose proof (rank2_head_lower l1 l2) as Hlo.
  pose proof (rank2_head_upper l1 l2) as Hhi.
  rewrite E in Hlo, Hhi. rewrite H1 in *.
  replace (Py.len a - p) with (Py.len l2) by lia. lia.
Qed.

Lemma tail2_bounds (a : list Q) (p : Z) :
  0 <= p <= Py.len a ->
  p * (p + 1) <= tail2 a p <= p * (p + 1) + 2 * p * (Py.len a - p).
Proof.
  intros Hp. unfold tail2.
  pose proof (firstn_skipn (Z.to_nat (Py.len a - p)) a) as E.
  set (l1 := firstn (Z.to_nat (Py.len a - p)) a) in *.
  set (l2 := skipn (Z.to_nat (Py.len a - p)) a) in *.
  assert (Py.len l1 = Py.len a - p) as H1.
  { unfold l1. unfold Py.len in *. rewrite length_firstn. lia. }
  pose proof (len_app l1 l2) as H2. rewrite E in H2.
  pose proof (rank2_tail_lower l1 l2) as Hlo.
  pose proof (rank2_tail_upper l1 l2) as Hhi.
  rewrite E in Hlo, Hhi.
  assert (Py.len l2 = p) as H3 by lia. rewrite H3 in *.
  rewrite H1 in Hhi. nia.
Qed.

Section RawIndicators.

Variable argsort : list Q -> list nat.
Hypothesis argsort_ok : NumPy.argsort_contract argsort.

Lemma ranked_len (xs ys : list Q) :
  Py.len (ranked argsort xs ys) = Py.len xs.
Proof. unfold Py.len. now rewrite ranked_length. Qed.

(** With as many ys as xs (or more) and [9 <= N] the raw indicators are
    the halved difference of the doubled rank sums and its quotient by
    [p * (N - p)]. *)
Lemma raw_indicators_ok (xs ys : list Q) :
  (length xs <= length ys)%nat ->
  9 <= Py.len xs ->
  exists i,
    raw_indicators argsort xs ys = inr i /\
    let p := Py.round (inject_Z (Py.len xs) / 3) in
    let a := ranked argsort xs ys in
    (fst i == (head2 a p - tail2 a p) # 2)%Q /\
    (snd i == fst i / inject_Z (p * (Py.len xs - p)))%Q.
Proof.
  intros Hlen HN. unfold raw_indicators.
  rewrite (get_ranks_ok argsort argsort_ok) by exact Hlen. simpl.
  eexists. split; [reflexivity |]. cbv zeta. cbn [fst snd].
  destruct (partition_size _ HN) as [Hp3 Hp2].
  split; [| reflexivity].
  rewrite sum_head, sum_tail by lia. apply half_minus.
Qed.

(** The rank sums of the two groups differ by at most [p * (N - p)], so
    the rate lies between -1 and 1. *)
Lemma raw_indicators_bounds (xs ys : list Q) :
  (length xs <= length ys)%nat ->
  9 <= Py.len xs ->
  exists i,
    raw_indicators argsort xs ys = inr i /\
    let p := Py.round (inject_Z (Py.len xs) / 3) in
    (Qabs (fst i) <= inject_Z (p * (Py.len xs - p)))%Q /\
    (- (1) <= snd i <= 1)%Q.
Proof.
  intros Hlen HN.
  destruct (raw_indicators_ok xs ys Hlen HN) as [i [Hi [Hf Hs]]].
  exists i. split; [exact Hi |]. cbv zeta in *.
  destruct (partition_size _ HN) as [Hp3 Hp2].
  set (p := Py.round (inject_Z (Py.len xs) / 3)) in *.
  set (a := ranked argsort xs ys) in *.
  pose proof (ranked_len xs ys) as Ha. fold a in Ha.
  pose proof (head2_bounds a p ltac:(lia)) as Hh.
  pose proof (tail2_bounds a p ltac:(lia)) as Ht.
  rewrite Ha in Hh, Ht.
  set (D := p * (Py.len xs - p)) in *.
  assert (0 < D) as HD by (unfold D; nia).
  assert (- (2 * D) <= head2 a p - tail2 a p <= 2 * D) as Hd
    by (unfold D; nia).
  assert (- inject_Z D <= fst i <= inject_Z D)%Q as Hb.
  { rewrite Hf. unfold Qle, Qopp, inject_Z. cbn [Qnum Qden]. lia. }
  split.
  - apply Qabs_Qle_condition. exact Hb.
  - rewrite Hs. assert (0 < inject_Z D)%Q as HD'.
    { unfold Qlt, inject_Z. cbn [Qnum Qden]. lia. }
    split.
    + apply Qle_shift_div_l; [exact HD' |]. lra.
    + apply Qle_shift_div_r; [exact HD' |]. lra.
Qed.

End RawIndicators.

(** ** Average ranks as means of occupied ranks *)

Lemma count_map (f : Q -> bool) (g : Q -> Q) (l : list Q) :
  SciPy.count f (map g l) = SciPy.count (fun w => f (g w)) l.
Proof.
  induction l as [| w l IH]; simpl; congruence.
Qed.

Lemma count_ext (f g : Q -> bool) (l : list Q) :
  (forall w, f w = g w) -> SciPy.count f l = SciPy.count g l.
Proof.
  intros H. induction l as [| w l IH]; simpl; [reflexivity |].
  now rewrite H, IH.
Qed.

Lemma count_split (f g h : Q -> bool) (l : list Q) :
  (forall w, f w = xorb (g w) (h w)) ->
  (forall w, g w && h w = false) ->
  SciPy.count f l = SciPy.count g l + SciPy.count h l.
Proof.
  intros H1 H2. induction l as [| w l IH]; [reflexivity |].
  cbn [SciPy.count]. rewrite IH, H1. specialize (H2 w).
  destruct (g w), (h w); cbn [xorb andb] in *; try discriminate; lia.
Qed.

Lemma count_pos (f : Q -> bool) (l : list Q) (v : Q) :
  In v l -> f v = true -> 1 <= SciPy.count f l.
Proof.
  intros Hin Hf. induction l as [| w l IH]; [destruct Hin |].
  simpl. pose proof (count_bounds f l).
  destruct Hin as [-> | Hin].
  - rewrite Hf. lia.
  - specialize (IH Hin). destruct (f w); lia.
Qed.

Lemma Qle_bool_opp (a b : Q) : Qle_bool (- a) (- b) = Qle_bool b a.
Proof.
  destruct (Qle_bool b a) eqn:E.
  - apply Qle_bool_iff. apply Qle_bool_iff in E. lra.
  - destruct (Qle_bool (- a) (- b)) eqn:E'; [| reflexivity].
    apply Qle_bool_iff in E'.
    assert (b <= a)%Q as H by lra. apply Qle_bool_iff in H. congruence.
Qed.

(** Boolean comparisons in the context become propositions. *)
Ltac bool_to_prop :=
  repeat match goal with
  | H : Qle_bool _ _ = true |- _ => apply Qle_bool_iff in H
  | H : Qle_bool ?a ?b = false |- _ =>
      assert (~ (a <= b)%Q)
        by (let X := fresh in intros X; apply Qle_bool_iff in X; congruence);
      clear H
  | H : Qeq_bool _ _ = true |- _ => apply Qeq_bool_iff in H
  | H : Qeq_bool ?a ?b = false |- _ =>
      assert (~ (a == b)%Q)
        by (let X := fresh in intros X; apply Qeq_bool_iff in X; congruence);
      clear H
  end.

(** An element is at most [w] when it is below [w] or equal to it, and
    not both. *)
Lemma le_lt_eq (y w : Q) :
  Qle_bool y w = xorb (SciPy.Qlt_bool y w) (Qeq_bool w y) /\
  SciPy.Qlt_bool y w && Qeq_bool w y = false.
Proof.
  unfold SciPy.Qlt_bool.
  destruct (Qle_bool y w) eqn:E1, (Qle_bool w y) eqn:E2,
           (Qeq_bool w y) eqn:E3; simpl; split; try reflexivity;
    exfalso; bool_to_prop; lra.
Qed.

(** The rank of [- y] among the negated values counts the values above
    [y] twice and the values equal to [y] once. *)
Lemma rank2_opp (l : list Q) (y : Q) :
  SciPy.rank2 (map Qopp l) (- y) = 2 * greater y l + tied y l + 1.
Proof.
  unfold SciPy.rank2, greater, tied. rewrite !count_map.
  rewrite (count_ext (fun w => SciPy.Qlt_bool (- w) (- y))
                     (fun w => SciPy.Qlt_bool y w))
    by (intros w; unfold SciPy.Qlt_bool; now rewrite Qle_bool_opp).
  rewrite (count_ext (fun w => Qle_bool (- w) (- y)) (fun w => Qle_bool y w))
    by (intros w; apply Qle_bool_opp).
  rewrite (count_split (fun w => Qle_bool y w)
                       (fun w => SciPy.Qlt_bool y w) (fun w => Qeq_bool w y))
    by (intros w; apply le_lt_eq).
  lia.
Qed.

Lemma reorder_seq (ys : list Q) : reorder ys (seq 0 (length ys)) = ys.
Proof.
  unfold reorder. induction ys as [| y ys IH]; [reflexivity |].
  cbn [length seq map nth]. f_equal.
  rewrite <- seq_shift, map_map. exact IH.
Qed.

Lemma reorder_perm (ys : list Q) (idx : list nat) :
  Permutation idx (seq 0 (length ys)) -> Permutation (reorder ys idx) ys.
Proof.
  intros H. rewrite <- (reorder_seq ys) at 2.
  unfold reorder. now apply Permutation_map.
Qed.

Lemma nth_rankdata (a : list Q) (i : nat) :
  (i < length a)%nat ->
  nth i (SciPy.rankdata a) 0%Q = (SciPy.rank2 a (nth i a 0%Q) # 2)%Q.
Proof.
  intros Hi. unfold SciPy.rankdata.
  rewrite (nth_indep _ 0%Q (SciPy.rank2 a 0%Q # 2)%Q)
    by (now rewrite length_map).
  apply (map_nth (fun v => (SciPy.rank2 a v # 2)%Q)).
Qed.

Lemma nth_opp (l : list Q) (i : nat) :
  nth i (map Qopp l) 0%Q = (- nth i l 0)%Q.
Proof. apply (map_nth Qopp l 0%Q). Qed.

Lemma sum_inject {A : Type} (g : A -> Z) (l : list A) :
  (Py.sum (map (fun k => inject_Z (g k)) l) == inject_Z (Zsum g l))%Q.
Proof.
  induction l as [| v l IH]; [reflexivity |].
  simpl map. rewrite sum_cons, IH. simpl Zsum. now rewrite inject_Z_plus.
Qed.

Lemma Zsum_const {A : Type} (c : Z) (l : list A) :
  Zsum (fun _ => c) l = c * Py.len l.
Proof.
  unfold Py.len. induction l as [| v l IH]; cbn [Zsum length]; lia.
Qed.

(** The mean of [n] consecutive ranks is the mean of the first and the
    last of them. *)
Lemma mean_occupied (first n : Z) :
  1 <= n -> (mean (occupied first n) == (2 * first + n - 1) # 2)%Q.
Proof.
  intros Hn. unfold mean, occupied.
  rewrite (sum_inject (fun k => first + Z.of_nat k)).
  rewrite Zsum_plus, Zsum_const.
  pose proof (Zsum_seq 0 (Z.to_nat n)) as HS.
  unfold Py.len. rewrite length_map, !length_seq.
  rewrite Z2Nat.id in * by lia.
  set (S0 := Zsum Z.of_nat (seq 0 (Z.to_nat n))) in *.
  apply Qeq_alt. apply Qeq_alt.
  assert (inject_Z n > 0)%Q as Hn'.
  { unfold Qlt, inject_Z. simpl. lia. }
  apply (Qmult_inj_r _ _ (inject_Z n)); [lra |].
  unfold Qdiv. rewrite <- Qmult_assoc, (Qmult_comm (/ _)), Qmult_inv_r by lra.
  unfold Qeq, Qmult, inject_Z. cbn [Qnum Qden]. nia.
Qed.

(** ** Ranks of strictly monotone data *)



















(** ** The order of the sorted pairs *)

Lemma combine_reorder (xs ys : list Q) (idx : list nat) :
  combine (reorder xs idx) (reorder ys idx)
  = map (fun i => (nth i xs 0%Q, nth i ys 0%Q)) idx.
Proof.
  unfold reorder. induction idx as [| i idx IH]; simpl; congruence.
Qed.

Lemma pairs_seq (xs ys : list Q) :
  length xs = length ys ->
  map (fun i => (nth i xs 0%Q, nth i ys 0%Q)) (seq 0 (length xs))
  = combine xs ys.
Proof.
  revert ys. induction xs as [| x xs IH]; intros [| y ys] H;
    simpl in H; try discriminate; [reflexivity |].
  cbn [length seq map nth combine]. f_equal.
  rewrite <- seq_shift, map_map. apply IH. lia.
Qed.

(** ** The printed result *)

Lemma uint_digits (d : Decimal.uint) :
  all_digits (NilEmpty.string_of_uint d) = true.
Proof.
  induction d; simpl; auto.
Qed.

Lemma uint_literal (d : Decimal.uint) :
  all_digits (NilZero.string_of_uint d) = true /\
  NilZero.string_of_uint d <> "".
Proof.
  destruct d; simpl; (split; [try apply uint_digits; reflexivity | discriminate]).
Qed.

Lemma str_int_literal (z : Z) : is_int_literal (Py.str_int z) = true.
Proof.
  unfold Py.str_int. destruct z as [| p | p]; [reflexivity | |].
  - cbn [Z.to_int NilZero.string_of_int].
    destruct (uint_literal (Pos.to_uint p)) as [Hd Hn].
    destruct (NilZero.string_of_uint (Pos.to_uint p)) as [| c s] eqn:E;
      [congruence |].
    unfold is_int_literal.
    destruct (Ascii.eqb_spec c "-") as [-> | _]; [| exact Hd].
    simpl in Hd. discriminate.
  - cbn [Z.to_int NilZero.string_of_int].
    destruct (uint_literal (Pos.to_uint p)) as [Hd Hn].
    cbn [is_int_literal]. rewrite Ascii.eqb_refl, Hd.
    destruct (String.eqb_spec (NilZero.string_of_uint (Pos.to_uint p)) "");
      [congruence | reflexivity].
Qed.

Lemma str_int_digits (z : Z) : 0 <= z -> all_digits (Py.str_int z) = true.
Proof.
  intros Hz. unfold Py.str_int. destruct z as [| p | p]; [reflexivity | | lia].
  cbn [Z.to_int NilZero.string_of_int]. apply uint_literal.
Qed.

Lemma str_digit (k : Z) : 0 <= k < 10 -> String.length (Py.str_int k) = 1%nat.
Proof.
  intros H.
  assert (k = 0 \/ k = 1 \/ k = 2 \/ k = 3 \/ k = 4 \/ k = 5 \/ k = 6
          \/ k = 7 \/ k = 8 \/ k = 9) as C by lia.
  repeat (destruct C as [-> | C]; [reflexivity |]). now subst.
Qed.

Lemma decimals_skip (s1 s2 : string) :
  all_digits s1 = true -> decimals (s1 ++ s2) = decimals s2.
Proof.
  induction s1 as [| c s1 IH]; simpl; [reflexivity |].
  intros H. apply andb_prop in H as [Hc Hs].
  destruct (Ascii.eqb_spec c ".") as [-> | _]; [discriminate | auto].
Qed.

Lemma string_length_app (s1 s2 : string) :
  String.length (s1 ++ s2) = (String.length s1 + String.length s2)%nat.
Proof.
  induction s1 as [| c s1 IH]; simpl; congruence.
Qed.

(** One digit follows the point when the count of hundredths ends in 0,
    two digits otherwise. *)
Lemma str_float2_decimals (r : NumPy.float2) :
  0 <= NumPy.f2_hundredths r ->
  decimals (NumPy.str_float2 r)
  = if NumPy.f2_hundredths r mod 10 =? 0 then 1%nat else 2%nat.
Proof.
  intros Hh. unfold NumPy.str_float2.
  set (h := NumPy.f2_hundredths r) in *.
  assert (decimals ((if NumPy.f2_neg r then "-" else "") ++
                    Py.str_int (h / 100) ++ "." ++
                    Py.str_int ((h / 10) mod 10) ++
                    (if h mod 10 =? 0 then "" else Py.str_int (h mod 10)))
          = decimals (Py.str_int (h / 100) ++ "." ++
                      Py.str_int ((h / 10) mod 10) ++
                      (if h mod 10 =? 0 then "" else Py.str_int (h mod 10))))
    as -> by (destruct (NumPy.f2_neg r); reflexivity).
  rewrite decimals_skip
    by (apply str_int_digits, Z.div_pos; lia).
  cbn [append decimals]. rewrite Ascii.eqb_refl, string_length_app.
  rewrite str_digit by (apply Z.mod_pos_bound; lia).
  destruct (Z.eqb_spec (h mod 10) 0) as [E | E]; [reflexivity |].
  rewrite str_digit; [reflexivity |].
  pose proof (Z.mod_pos_bound h 10 ltac:(lia)). lia.
Qed.

Lemma read_lines_lengths (py_float : string -> option Q) (ls : list string) :
  forall xs0 ys0 xs ys,
    read_lines py_float ls xs0 ys0 = inr (xs, ys) ->
    length xs0 = length ys0 -> length xs = length ys.
Proof.
  induction ls as [| l ls IH]; intros xs0 ys0 xs ys H Hl; simpl in H.
  - injection H as <- <-. exact Hl.
  - destruct (parse_line py_float l) as [e | xy]; [discriminate |].
    simpl in H. apply (IH _ _ _ _ H). rewrite !length_app. simpl. lia.
Qed.

(** ** The written line read back *)

Lemma append_assoc (s1 s2 s3 : string) :
  ((s1 ++ s2) ++ s3 = s1 ++ (s2 ++ s3))%string.
Proof.
  induction s1 as [| c s1 IH]; simpl; congruence.
Qed.

Lemma every_app (P : ascii -> bool) (s1 s2 : string) :
  every P (s1 ++ s2) = every P s1 && every P s2.
Proof.
  induction s1 as [| c s1 IH]; simpl; [reflexivity |].
  now rewrite IH, andb_assoc.
Qed.

Lemma every_weaken (P R : ascii -> bool) (s : string) :
  (forall c, P c = true -> R c = true) ->
  every P s = true -> every R s = true.
Proof.
  intros H. induction s as [| c s IH]; simpl; [reflexivity |].
  intros E. apply andb_prop in E as [Ec Es].
  now rewrite (H c Ec), IH.
Qed.

Lemma digits_every (s : string) :
  all_digits s = true -> every is_number_char s = true.
Proof.
  induction s as [| c s IH]; simpl; [reflexivity |].
  intros E. apply andb_prop in E as [Ec Es].
  unfold is_number_char at 1. now rewrite Ec, IH.
Qed.

Lemma number_char_plain (c : ascii) :
  is_number_char c = true ->
  Py.is_space c = false /\ is_line_end c = false.
Proof.
  destruct c as [[] [] [] [] [] [] [] []]; vm_compute;
    intros H; try discriminate H; split; reflexivity.
Qed.

Lemma str_int_chars (z : Z) : every is_number_char (Py.str_int z) = true.
Proof.
  unfold Py.str_int. destruct z as [| p | p]; [reflexivity | |];
    cbn [Z.to_int NilZero.string_of_int].
  - apply digits_every, uint_literal.
  - cbn [every]. rewrite (digits_every _ (proj1 (uint_literal _))).
    reflexivity.
Qed.

Lemma str_float2_chars (r : NumPy.float2) :
  every is_number_char (NumPy.str_float2 r) = true.
Proof.
  unfold NumPy.str_float2. rewrite !every_app, !str_int_chars.
  destruct (NumPy.f2_neg r), (NumPy.f2_hundredths r mod 10 =? 0);
    rewrite ?str_int_chars; reflexivity.
Qed.

Lemma str_float2_nonempty (r : NumPy.float2) : NumPy.str_float2 r <> "".
Proof.
  unfold NumPy.str_float2.
  destruct (NumPy.f2_neg r); [discriminate |].
  destruct (Py.str_int (NumPy.f2_hundredths r / 100)); discriminate.
Qed.

Lemma int_literal_nonempty (s : string) : is_int_literal s = true -> s <> "".
Proof. destruct s; [discriminate | discriminate]. Qed.

Lemma rev_chars (s : string) (c : ascii) (cur : list ascii) :
  rev (list_ascii_of_string (String c s)) ++ cur
  = rev (list_ascii_of_string s) ++ c :: cur.
Proof. simpl. now rewrite <- app_assoc. Qed.

(** A run of characters that are not blank is gathered into the current
    piece. *)
Lemma split_from_run (s rest : string) :
  every is_number_char s = true ->
  forall cur,
    Py.split_from cur (s ++ rest)
    = Py.split_from (rev (list_ascii_of_string s) ++ cur) rest.
Proof.
  induction s as [| c s IH]; intros E cur; [reflexivity |].
  simpl in E. apply andb_prop in E as [Ec Es].
  destruct (number_char_plain c Ec) as [Hs _].
  cbn [append Py.split_from]. rewrite Hs, (IH Es). now rewrite rev_chars.
Qed.

Lemma split_piece (s rest : string) (c : ascii) :
  every is_number_char s = true -> s <> "" -> Py.is_space c = true ->
  Py.split_from [] (s ++ String c rest) = s :: Py.split_from [] rest.
Proof.
  intros E Hn Hc. rewrite (split_from_run s _ E). rewrite app_nil_r.
  cbn [Py.split_from]. rewrite Hc.
  destruct (rev (list_ascii_of_string s)) as [| a l] eqn:El.
  - destruct s; [congruence |]. simpl in El.
    now apply app_eq_nil in El as [_ El].
  - rewrite <- El, rev_involutive, string_of_list_ascii_of_string.
    reflexivity.
Qed.

(** Characters that end no line are gathered into the current line. *)
Lemma lines_from_run (s rest : string) :
  every (fun c => negb (is_line_end c)) s = true ->
  forall cur,
    Py.lines_from false cur (s ++ rest)
    = Py.lines_from false (rev (list_ascii_of_string s) ++ cur) rest.
Proof.
  induction s as [| c s IH]; intros E cur; [reflexivity |].
  simpl in E. apply andb_prop in E as [Ec Es].
  unfold is_line_end in Ec. apply negb_true_iff, orb_false_iff in Ec as [E1 E2].
  cbn [append Py.lines_from]. rewrite E1, E2, (IH Es). now rewrite rev_chars.
Qed.

Lemma string_of_snoc (l : list ascii) (c : ascii) :
  string_of_list_ascii (l ++ [c])
  = (string_of_list_ascii l ++ String c "")%string.
Proof.
  induction l as [| a l IH]; simpl; congruence.
Qed.

Lemma lines_single (s : string) :
  every (fun c => negb (is_line_end c)) s = true ->
  Py.lines (s ++ nl) = [(s ++ nl)%string].
Proof.
  intros E. unfold Py.lines, nl. rewrite (lines_from_run s _ E), app_nil_r.
  cbn [Py.lines_from]. rewrite Ascii.eqb_refl.
  cbn [rev]. rewrite rev_involutive, string_of_snoc.
  now rewrite string_of_list_ascii_of_string.
Qed.

Lemma number_chars_no_line_end (s : string) :
  every is_number_char s = true ->
  every (fun c => negb (is_line_end c)) s = true.
Proof.
  apply every_weaken. intros c Hc.
  destruct (number_char_plain c Hc) as [_ ->]. reflexivity.
Qed.

(** A line of three printed numbers splits into them and is one line. *)
Lemma three_numbers_line (a b c : string) :
  every is_number_char a = true -> a <> "" ->
  every is_number_char b = true -> b <> "" ->
  every is_number_char c = true -> c <> "" ->
  let line := ((a ++ " " ++ b ++ " " ++ c) ++ nl)%string in
  Py.split line = [a; b; c] /\ Py.lines line = [line].
Proof.
  intros Ea Na Eb Nb Ec Nc line. split.
  - unfold line, Py.split, nl. rewrite !append_assoc.
    cbn [append]. rewrite !split_piece by (assumption || reflexivity).
    reflexivity.
  - apply lines_single. rewrite !every_app.
    rewrite (number_chars_no_line_end a Ea), (number_chars_no_line_end b Eb),
      (number_chars_no_line_end c Ec).
    reflexivity.
Qed.

(** * The claims *)

(** C1: for xs = [1..9], [check_mon_conj] returns (-18, 7, -1.0) on the
    decreasing ys = [9..1] and (18, 7, 1.0) on the increasing ys = [1..9],
    whichever sorting permutation [np.argsort] returns. *)
Theorem C1_scenarios (argsort : list Q -> list nat) :
  NumPy.argsort_contract argsort ->
  check_mon_conj argsort xs9 ys_decreasing
    = inr (-18, 7, NumPy.Float2 true 100) /\
  check_mon_conj argsort xs9 ys_increasing
    = inr (18, 7, NumPy.Float2 false 100) /\
  (NumPy.float2_Q (NumPy.Float2 true 100) == - (1))%Q /\
  (NumPy.float2_Q (NumPy.Float2 false 100) == 1)%Q.
Proof.
  intros H. pose proof (argsort_xs9 argsort H) as E.
  unfold check_mon_conj, get_ranks. rewrite E.
  repeat split; vm_compute; reflexivity.
Qed.

Lemma C1_scenarios_witness :
  check_mon_conj (insertion_argsort false) xs9 ys_decreasing
    = inr (-18, 7, NumPy.Float2 true 100) /\
  check_mon_conj (insertion_argsort false) xs9 ys_increasing
    = inr (18, 7, NumPy.Float2 false 100) /\
  (NumPy.float2_Q (NumPy.Float2 true 100) == - (1))%Q /\
  (NumPy.float2_Q (NumPy.Float2 false 100) == 1)%Q.
Proof.
  apply (C1_scenarios (insertion_argsort false)).
  apply insertion_argsort_contract.
Defined.

(** C2: with fewer than 9 points [check_mon_conj] raises the error with
    the message "Number of points must be not less than 9", whatever the
    data; with 9 points or more (and as many ys as xs) it raises nothing
    and returns a result. *)
Theorem C2_validation_gate (argsort : list Q -> list nat) (xs ys : list Q) :
  NumPy.argsort_contract argsort ->
  length xs = length ys ->
  (Py.len xs < 9 ->
   check_mon_conj argsort xs ys
   = inl (Py.ValueError "Number of points must be not less than 9")) /\
  (9 <= Py.len xs -> exists r, check_mon_conj argsort xs ys = inr r).
Proof.
  intros Hc Hlen. unfold check_mon_conj. split; intros HN.
  - destruct (Z.ltb_spec (Py.len xs) 9); [reflexivity | lia].
  - destruct (Z.ltb_spec (Py.len xs) 9); [lia |].
    rewrite (get_ranks_ok argsort Hc) by lia. simpl. eauto.
Qed.

Lemma C2_validation_gate_witness :
  check_mon_conj (insertion_argsort false) (qs [1;2;3;4;5;6;7;8])
                 (qs [8;7;6;5;4;3;2;1])
  = inl (Py.ValueError "Number of points must be not less than 9") /\
  exists r, check_mon_conj (insertion_argsort false) xs9 ys_decreasing = inr r.
Proof.
  split.
  - apply (C2_validation_gate (insertion_argsort false)
             (qs [1;2;3;4;5;6;7;8]) (qs [8;7;6;5;4;3;2;1])
             (insertion_argsort_contract false) eq_refl).
    vm_compute. reflexivity.
  - apply (C2_validation_gate (insertion_argsort false) xs9 ys_decreasing
             (insertion_argsort_contract false) eq_refl).
    vm_compute. discriminate.
Defined.

(** C3 as stated (the first component is [round (R1 - R2)]) fails: on
    xs = [1..9], ys = [9,8,7,7,5,4,3,2,1] the ranks are
    1, 2, 3.5, 3.5, 5, ..., 9, so R1 - R2 = 6.5 - 24 = -17.5, which rounds
    to -18, while the program returns -17. *)
Lemma C3_counterexample :
  exists i,
    raw_indicators (insertion_argsort false) xs9 ys_tied = inr i /\
    (fst i == - (35 # 2))%Q /\
    Py.round (fst i) = -18 /\
    check_mon_conj (insertion_argsort false) xs9 ys_tied
    = inr (-17, 7, NumPy.Float2 true 97).
Proof.
  eexists. split; [vm_compute; reflexivity |].
  repeat split; vm_compute; reflexivity.
Qed.

(** C3, amended: the first component of the result is R1 - R2 with its
    fraction dropped ([int] truncates toward zero), where R1 is the sum
    of the first p ranks and R2 the sum of the last p ranks. *)
Theorem C3_difference_truncated (argsort : list Q -> list nat)
    (xs ys : list Q) (d s : Z) (r : NumPy.float2) :
  check_mon_conj argsort xs ys = inr (d, s, r) ->
  exists ranks,
    get_ranks argsort xs ys = inr ranks /\
    let p := Py.round (inject_Z (Py.len xs) / 3) in
    let R1 := Py.sum (Py.slice_upto ranks p) in
    let R2 := Py.sum (Py.slice_from ranks (- p)) in
    d = Py.int (R1 - R2) /\
    ((0 <= R1 - R2 -> inject_Z d <= R1 - R2 /\ R1 - R2 < inject_Z d + 1) /\
     (R1 - R2 <= 0 -> inject_Z d - 1 < R1 - R2 /\ R1 - R2 <= inject_Z d))%Q.
Proof.
  unfold check_mon_conj. intros H.
  destruct (Py.len xs <? 9); [discriminate |].
  destruct (get_ranks argsort xs ys) as [e | ranks]; [discriminate |].
  exists ranks. split; [reflexivity |]. simpl in H. injection H as <- _ _.
  cbv zeta. split; [reflexivity | apply int_truncates].
Qed.

Lemma C3_difference_truncated_witness :
  exists ranks,
    get_ranks (insertion_argsort false) xs9 ys_tied = inr ranks /\
    let p := Py.round (inject_Z (Py.len xs9) / 3) in
    let R1 := Py.sum (Py.slice_upto ranks p) in
    let R2 := Py.sum (Py.slice_from ranks (- p)) in
    -17 = Py.int (R1 - R2) /\
    ((0 <= R1 - R2 -> inject_Z (-17) <= R1 - R2 /\ R1 - R2 < inject_Z (-17) + 1) /\
     (R1 - R2 <= 0 -> inject_Z (-17) - 1 < R1 - R2 /\ R1 - R2 <= inject_Z (-17)))%Q.
Proof.
  apply (C3_difference_truncated (insertion_argsort false) xs9 ys_tied
           (-17) 7 (NumPy.Float2 true 97)).
  vm_compute. reflexivity.
Defined.




(** C6: with as many ys as xs, [get_ranks] returns N ranks whose sum is
    exactly N (N + 1) / 2, whatever the ties.  Each y receives the mean of
    the ranks [g + 1 .. g + t] that it and the values tied with it occupy
    in descending order, where g values are greater and t are equal to it
    (itself included); so a single largest y receives rank 1. *)
Theorem C6_rank_sum (argsort : list Q -> list nat) (xs ys : list Q) :
  NumPy.argsort_contract argsort ->
  length xs = length ys ->
  exists ranks,
    get_ranks argsort xs ys = inr ranks /\
    length ranks = length xs /\
    let N := Py.len xs in
    (Py.sum ranks == inject_Z (N * (N + 1)) / 2)%Q /\
    forall i, (i < length xs)%nat ->
      let y := nth i (reorder ys (argsort xs)) 0%Q in
      (nth i ranks 0 == mean (occupied (greater y ys + 1) (tied y ys)))%Q /\
      (greater y ys = 0 -> tied y ys = 1 -> (nth i ranks 0 == 1)%Q).
Proof.
  intros Hc Hlen.
  rewrite (get_ranks_ok argsort Hc) by lia.
  eexists. split; [reflexivity |].
  pose proof (ranked_length argsort Hc xs ys) as Hl.
  pose proof (ranked_len argsort Hc xs ys) as HL.
  split; [unfold SciPy.rankdata; now rewrite length_map |].
  cbv zeta. split.
  - unfold SciPy.rankdata. rewrite sum_half, rank2_total, HL.
    unfold Qeq, Qdiv, Qmult, Qinv, inject_Z. cbn [Qnum Qden]. lia.
  - intros i Hi.
    assert (Permutation (reorder ys (argsort xs)) ys) as HP.
    { apply reorder_perm. rewrite <- Hlen. apply (Hc xs). }
    assert (length (reorder ys (argsort xs)) = length xs) as Hr.
    { unfold reorder. rewrite length_map. apply sorts_length, Hc. }
    rewrite nth_rankdata by lia.
    unfold ranked. rewrite !nth_opp, !rank2_opp.
    set (y := nth i (reorder ys (argsort xs)) 0%Q).
    assert (greater y (reorder ys (argsort xs)) = greater y ys) as ->
      by (apply count_perm, HP).
    assert (tied y (reorder ys (argsort xs)) = tied y ys) as ->
      by (apply count_perm, HP).
    assert (1 <= tied y ys) as Ht.
    { apply (count_pos _ _ y).
      - apply (Permutation_in _ HP). apply nth_In. lia.
      - apply Qeq_bool_iff. reflexivity. }
    split.
    + rewrite mean_occupied by exact Ht.
      unfold Qeq. cbn [Qnum Qden]. lia.
    + intros Hg H1. rewrite Hg, H1. reflexivity.
Qed.

Lemma C6_rank_sum_witness :
  exists ranks,
    get_ranks (insertion_argsort false) xs9 ys_tied = inr ranks /\
    length ranks = length xs9 /\
    let N := Py.len xs9 in
    (Py.sum ranks == inject_Z (N * (N + 1)) / 2)%Q /\
    forall i, (i < length xs9)%nat ->
      let y := nth i (reorder ys_tied (insertion_argsort false xs9)) 0%Q in
      (nth i ranks 0
       == mean (occupied (greater y ys_tied + 1) (tied y ys_tied)))%Q /\
      (greater y ys_tied = 0 -> tied y ys_tied = 1 -> (nth i ranks 0 == 1)%Q).
Proof.
  apply (C6_rank_sum (insertion_argsort false) xs9 ys_tied
           (insertion_argsort_contract false) eq_refl).
Defined.

(** C7: when the input file parses to fewer than 9 samples, [main] raises
    the "not less than 9" error and the files are exactly as before: the
    output file is neither written nor created. *)
Theorem C7_no_write_below_nine (argsort : list Q -> list nat)
    (py_float : string -> option Q) (in_path out_path : string)
    (fs : files) (content : string) (xs ys : list Q) :
  content_of fs in_path = Some content ->
  read_lines py_float (Py.lines content) [] [] = inr (xs, ys) ->
  Py.len xs < 9 ->
  main argsort py_float in_path out_path fs
  = (inl (Py.ValueError "Number of points must be not less than 9"), fs).
Proof.
  intros Hf Hr HN. unfold main, io_bind, read_data. rewrite Hf, Hr.
  unfold io_lift, check_mon_conj. cbn [fst snd].
  destruct (Z.ltb_spec (Py.len xs) 9); [reflexivity | lia].
Qed.

Lemma C7_no_write_below_nine_witness :
  main (insertion_argsort false) digits_float "in.txt" "out.txt"
       (files_with lines_eight)
  = (inl (Py.ValueError "Number of points must be not less than 9"),
     files_with lines_eight).
Proof.
  apply (C7_no_write_below_nine (insertion_argsort false) digits_float
           "in.txt" "out.txt" (files_with lines_eight)
           (String.concat "" (map (fun l => (l ++ nl)%string) lines_eight))
           (qs [1;2;3;4;5;6;7;8]) (qs [8;7;6;5;4;3;2;1])).
  - reflexivity.
  - vm_compute. reflexivity.
  - vm_compute. reflexivity.
Defined.

(** C8 as stated fails: on the nine samples (1,9), (2,8), ..., (9,1) the
    program writes the line "-18 7 -1.0", whose rate has one digit after
    the point, not two. *)
Lemma C8_counterexample :
  fst (main (insertion_argsort false) digits_float "in.txt" "out.txt"
            (files_with lines_decreasing)) = inr tt /\
  content_of
    (snd (main (insertion_argsort false) digits_float "in.txt" "out.txt"
               (files_with lines_decreasing))) "out.txt"
  = Some ("-18 7 -1.0" ++ nl)%string /\
  NumPy.str_float2 (NumPy.Float2 true 100) = "-1.0" /\
  decimals "-1.0" = 1%nat.
Proof.
  repeat split; vm_compute; reflexivity.
Qed.

(** C8, amended: on every valid input the output file holds a single
    line: the rank-sum difference and the standard deviation printed as
    integers and the rate printed as Python prints a float (the shortest
    form: one digit after the point when the rate is a multiple of 0.1,
    two digits otherwise), separated by single spaces and followed by a
    newline. *)
Theorem C8_output_line (argsort : list Q -> list nat)
    (py_float : string -> option Q) (in_path out_path : string)
    (fs : files) (content : string) (xs ys : list Q) :
  NumPy.argsort_contract argsort ->
  content_of fs in_path = Some content ->
  read_lines py_float (Py.lines content) [] [] = inr (xs, ys) ->
  9 <= Py.len xs ->
  can_write fs out_path = true ->
  exists d s r,
    check_mon_conj argsort xs ys = inr (d, s, r) /\
    let line :=
      ((Py.str_int d ++ " " ++ Py.str_int s ++ " " ++ NumPy.str_float2 r)
       ++ nl)%string in
    main argsort py_float in_path out_path fs
    = (inr tt, write_file fs out_path line) /\
    Py.lines line = [line] /\
    Py.split line = [Py.str_int d; Py.str_int s; NumPy.str_float2 r] /\
    is_int_literal (Py.str_int d) = true /\
    is_int_literal (Py.str_int s) = true /\
    decimals (NumPy.str_float2 r)
    = if NumPy.f2_hundredths r mod 10 =? 0 then 1%nat else 2%nat.
Proof.
  intros Hc Hf Hr HN Hw.
  pose proof (read_lines_lengths _ _ _ _ _ _ Hr eq_refl) as Hlen.
  unfold main, io_bind, read_data, save_result. rewrite Hf, Hr.
  unfold io_lift. cbn [fst snd]. unfold check_mon_conj.
  destruct (Z.ltb_spec (Py.len xs) 9); [lia |].
  rewrite (get_ranks_ok argsort Hc) by lia. cbn [Py.bind Py.ret].
  rewrite Hw.
  do 3 eexists. split; [reflexivity |]. cbv zeta.
  split; [reflexivity |].
  match goal with
  | |- Py.lines ((?a ++ " " ++ ?b ++ " " ++ ?c) ++ nl)%string = _ /\ _ =>
      destruct (three_numbers_line a b c) as [Hsplit Hlines];
        auto using str_int_chars, str_float2_chars, str_float2_nonempty,
                   int_literal_nonempty, str_int_literal
  end.
  split; [exact Hlines |]. split; [exact Hsplit |].
  split; [apply str_int_literal |]. split; [apply str_int_literal |].
  apply str_float2_decimals. cbn [NumPy.round2 NumPy.f2_hundredths]. lia.
Qed.

Lemma C8_output_line_witness :
  exists d s r,
    check_mon_conj (insertion_argsort false) xs9 ys_decreasing
    = inr (d, s, r) /\
    let line :=
      ((Py.str_int d ++ " " ++ Py.str_int s ++ " " ++ NumPy.str_float2 r)
       ++ nl)%string in
    main (insertion_argsort false) digits_float "in.txt" "out.txt"
         (files_with lines_decreasing)
    = (inr tt, write_file (files_with lines_decreasing) "out.txt" line) /\
    Py.lines line = [line] /\
    Py.split line = [Py.str_int d; Py.str_int s; NumPy.str_float2 r] /\
    is_int_literal (Py.str_int d) = true /\
    is_int_literal (Py.str_int s) = true /\
    decimals (NumPy.str_float2 r)
    = if NumPy.f2_hundredths r mod 10 =? 0 then 1%nat else 2%nat.
Proof.
  apply (C8_output_line (insertion_argsort false) digits_float
           "in.txt" "out.txt" (files_with lines_decreasing)
           (String.concat "" (map (fun l => (l ++ nl)%string) lines_decreasing))
           xs9 ys_decreasing (insertion_argsort_contract false)).
  - reflexivity.
  - vm_compute. reflexivity.
  - vm_compute. discriminate.
  - reflexivity.
Defined.



(** C10: the gate looks at [len(xs)] only.  With at least 9 xs and a
    different number of ys the "not less than 9" error is never raised:
    when ys is longer the result is computed from its first [len(xs)]
    elements, when ys is shorter the indexing [ys[sorted_idx]] fails
    with an IndexError. *)
Theorem C10_length_mismatch (argsort : list Q -> list nat) (xs ys : list Q) :
  NumPy.argsort_contract argsort ->
  9 <= Py.len xs ->
  length ys <> length xs ->
  ((length xs < length ys)%nat ->
   check_mon_conj argsort xs ys
   = check_mon_conj argsort xs (firstn (length xs) ys) /\
   exists r, check_mon_conj argsort xs ys = inr r) /\
  ((length ys < length xs)%nat ->
   exists msg, check_mon_conj argsort xs ys = inl (Py.IndexError msg)).
Proof.
  intros Hc HN Hne. unfold check_mon_conj.
  destruct (Z.ltb_spec (Py.len xs) 9); [lia |].
  split; intros Hlen.
  - rewrite (get_ranks_ok argsort Hc xs ys) by lia.
    rewrite (get_ranks_ok argsort Hc xs (firstn (length xs) ys))
      by (rewrite length_firstn; lia).
    rewrite ranked_firstn by exact Hc. simpl. eauto.
  - destruct (get_ranks_index_error argsort Hc xs ys Hlen) as [msg ->].
    simpl. eauto.
Qed.

Lemma C10_length_mismatch_witness :
  (check_mon_conj (insertion_argsort false) xs9 (qs [9;8;7;6;5;4;3;2;1;0])
   = check_mon_conj (insertion_argsort false) xs9
       (firstn (length xs9) (qs [9;8;7;6;5;4;3;2;1;0])) /\
   exists r, check_mon_conj (insertion_argsort false) xs9
               (qs [9;8;7;6;5;4;3;2;1;0]) = inr r) /\
  exists msg, check_mon_conj (insertion_argsort false) xs9
                (qs [9;8;7;6;5;4;3;2]) = inl (Py.IndexError msg).
Proof.
  split.
  - apply (C10_length_mismatch (insertion_argsort false) xs9
             (qs [9;8;7;6;5;4;3;2;1;0]) (insertion_argsort_contract false)).
    + vm_compute. discriminate.
    + vm_compute. discriminate.
    + vm_compute. lia.
  - apply (C10_length_mismatch (insertion_argsort false) xs9
             (qs [9;8;7;6;5;4;3;2]) (insertion_argsort_contract false)).
    + vm_compute. discriminate.
    + vm_compute. discriminate.
    + vm_compute. lia.
Defined.

(** * Further properties of the program *)

(** ** Splitting and stripping *)

Lemma split_from_blank (ws : string) :
  blank ws = true ->
  forall cur, Py.split_from cur ws = Py.split_from cur "".
Proof.
  unfold blank. induction ws as [| c ws IH]; intros E cur; [reflexivity |].
  simpl in E. apply andb_prop in E as [Ec Es].
  cbn [Py.split_from]. rewrite Ec, (IH Es []).
  destruct cur; reflexivity.
Qed.

Lemma split_from_app_blank (s ws : string) :
  blank ws = true ->
  forall cur, Py.split_from cur (s ++ ws) = Py.split_from cur s.
Proof.
  intros E. induction s as [| c s IH]; intros cur.
  - apply split_from_blank, E.
  - cbn [append Py.split_from]. rewrite !IH. reflexivity.
Qed.

Lemma split_from_blank_l (ws s : string) :
  blank ws = true -> Py.split_from [] (ws ++ s) = Py.split_from [] s.
Proof.
  unfold blank. induction ws as [| c ws IH]; intros E; [reflexivity |].
  simpl in E. apply andb_prop in E as [Ec Es].
  cbn [append Py.split_from]. rewrite Ec. auto.
Qed.

Lemma lstrip_blank (s : string) :
  exists ws, blank ws = true /\ s = (ws ++ Py.lstrip s)%string.
Proof.
  induction s as [| c s [ws [E H]]].
  - exists "". split; reflexivity.
  - cbn [Py.lstrip]. destruct (Py.is_space c) eqn:Ec.
    + exists (String c ws). split.
      * unfold blank in *. simpl. now rewrite Ec, E.
      * simpl. now rewrite <- H.
    + exists "". split; reflexivity.
Qed.

Lemma list_of_append (s1 s2 : string) :
  list_ascii_of_string (s1 ++ s2)
  = list_ascii_of_string s1 ++ list_ascii_of_string s2.
Proof.
  induction s1 as [| c s1 IH]; simpl; congruence.
Qed.

Lemma string_of_app (l1 l2 : list ascii) :
  string_of_list_ascii (l1 ++ l2)
  = (string_of_list_ascii l1 ++ string_of_list_ascii l2)%string.
Proof.
  induction l1 as [| c l1 IH]; simpl; congruence.
Qed.

Lemma every_forallb (P : ascii -> bool) (s : string) :
  every P s = forallb P (list_ascii_of_string s).
Proof.
  induction s as [| c s IH]; simpl; congruence.
Qed.

Lemma forallb_rev (P : ascii -> bool) (l : list ascii) :
  forallb P (rev l) = forallb P l.
Proof.
  induction l as [| c l IH]; [reflexivity |].
  simpl. rewrite forallb_app, IH. simpl. rewrite andb_true_r. apply andb_comm.
Qed.

Lemma rstrip_blank (s : string) :
  exists ws, blank ws = true /\ s = (Py.rstrip s ++ ws)%string.
Proof.
  unfold Py.rstrip.
  set (t := string_of_list_ascii (rev (list_ascii_of_string s))).
  destruct (lstrip_blank t) as [ws [E H]].
  exists (string_of_list_ascii (rev (list_ascii_of_string ws))). split.
  - unfold blank in *.
    rewrite every_forallb, list_ascii_of_string_of_list_ascii, forallb_rev.
    now rewrite <- every_forallb.
  - rewrite <- string_of_app, <- rev_app_distr, <- list_of_append, <- H.
    unfold t. rewrite list_ascii_of_string_of_list_ascii, rev_involutive.
    now rewrite string_of_list_ascii_of_string.
Qed.

(** [strip] before [split] changes nothing. *)
Lemma split_strip (s : string) : Py.split (Py.strip s) = Py.split s.
Proof.
  unfold Py.strip, Py.split.
  destruct (rstrip_blank (Py.lstrip s)) as [ws2 [E2 H2]].
  destruct (lstrip_blank s) as [ws1 [E1 H1]].
  rewrite H1 at 2. rewrite (split_from_blank_l ws1 _ E1).
  rewrite H2 at 2. now rewrite (split_from_app_blank _ ws2 E2).
Qed.

(** ** Reading the samples *)

Section Reading.

Variable py_float : string -> option Q.

Lemma map_float_inr (toks : list string) (vs : list Q) :
  map_float py_float toks = inr vs <->
  Forall2 (fun t v => py_float t = Some v) toks vs.
Proof.
  revert vs. induction toks as [| t toks IH]; intros vs; simpl.
  - split.
    + intros H. injection H as <-. constructor.
    + intros H. inversion H. reflexivity.
  - destruct (py_float t) as [v |] eqn:Et.
    + destruct (map_float py_float toks) as [e | vs'] eqn:Em; simpl.
      * split; [discriminate |].
        intros H. inversion H as [| ? w ? ws Hh Ht]; subst.
        apply IH in Ht. discriminate.
      * split.
        -- intros H. injection H as <-. constructor; [assumption |].
           now apply IH.
        -- intros H. inversion H as [| ? w ? ws Hh Ht]; subst.
           apply IH in Ht. injection Ht as ->. unfold Py.ret. congruence.
    + split; [discriminate |].
      intros H. inversion H as [| ? w ? ws Hh Ht]; subst. congruence.
Qed.

Lemma map_float_error (toks : list string) (e : Py.exn) :
  map_float py_float toks = inl e -> exists msg, e = Py.ValueError msg.
Proof.
  induction toks as [| t toks IH]; simpl; [discriminate |].
  destruct (py_float t); [| intros H; injection H as <-; eauto].
  destruct (map_float py_float toks); simpl; [| discriminate].
  intros H. injection H as <-. now apply IH.
Qed.

Lemma parse_line_error (l : string) (e : Py.exn) :
  parse_line py_float l = inl e -> exists msg, e = Py.ValueError msg.
Proof.
  unfold parse_line.
  destruct (map_float py_float (Py.split (Py.strip l))) as [e' | vs] eqn:Em;
    simpl.
  - intros H. injection H as <-. now apply map_float_error in Em.
  - destruct vs as [| x [| y [| z vs]]]; intros H; try discriminate H;
      injection H as <-; eauto.
Qed.

Lemma read_lines_inr (ls : list string) :
  forall xs0 ys0 xs ys,
    read_lines py_float ls xs0 ys0 = inr (xs, ys) <->
    exists xys, Forall2 (holds py_float) ls xys /\
                xs = xs0 ++ map fst xys /\ ys = ys0 ++ map snd xys.
Proof.
  induction ls as [| l ls IH]; intros xs0 ys0 xs ys; simpl.
  - split.
    + intros H. injection H as <- <-. exists []. simpl.
      rewrite !app_nil_r. repeat split. constructor.
    + intros [xys [HF [-> ->]]]. inversion HF. simpl.
      now rewrite !app_nil_r.
  - destruct (parse_line py_float l) as [e | xy] eqn:El; simpl.
    + split; [discriminate |]. intros [xys [HF _]].
      inversion HF as [| ? xy ? ? Hh Ht]; subst. unfold holds in Hh.
      congruence.
    + rewrite IH. split.
      * intros [xys [HF [-> ->]]]. exists (xy :: xys).
        split; [now constructor |]. simpl. now rewrite <- !app_assoc.
      * intros [xys [HF [-> ->]]].
        inversion HF as [| ? xy' ? xys' Hh Ht]; subst.
        unfold holds in Hh. assert (xy' = xy) as -> by congruence.
        exists xys'. split; [assumption |]. simpl. now rewrite <- !app_assoc.
Qed.

Lemma read_lines_error (ls : list string) :
  forall xs0 ys0 e,
    read_lines py_float ls xs0 ys0 = inl e -> exists msg, e = Py.ValueError msg.
Proof.
  induction ls as [| l ls IH]; intros xs0 ys0 e; simpl; [discriminate |].
  destruct (parse_line py_float l) as [e' | xy] eqn:El; simpl.
  - intros H. injection H as <-. now apply parse_line_error in El.
  - apply IH.
Qed.

Lemma read_lines_count (ls : list string) (xs ys : list Q) :
  read_lines py_float ls [] [] = inr (xs, ys) ->
  length xs = length ls /\ length ys = length ls.
Proof.
  intros H. apply read_lines_inr in H as [xys [HF [-> ->]]].
  apply Forall2_length in HF. simpl. rewrite !length_map. lia.
Qed.

End Reading.

Lemma Forall2_In_l {A B : Type} (R : A -> B -> Prop) (l : list A)
    (l' : list B) (a : A) :
  Forall2 R l l' -> In a l -> exists b, R a b.
Proof.
  induction 1 as [| x y l l' Hxy _ IH]; intros Hin; [destruct Hin |].
  destruct Hin as [<- | Hin]; eauto.
Qed.

Lemma read_lines_bad_line (py_float : string -> option Q) (ls : list string)
    (l : string) (e : Py.exn) :
  In l ls -> parse_line py_float l = inl e ->
  exists msg, read_lines py_float ls [] [] = inl (Py.ValueError msg).
Proof.
  intros Hin Hl.
  destruct (read_lines py_float ls [] []) as [e' | [xs ys]] eqn:E.
  - destruct (read_lines_error _ _ _ _ _ E) as [msg ->]. eauto.
  - apply read_lines_inr in E as [xys [HF _]].
    destruct (Forall2_In_l _ _ _ _ HF Hin) as [xy Hxy].
    unfold holds in Hxy. congruence.
Qed.

Lemma read_lines_first_bad (py_float : string -> option Q)
    (before after : list string) (bad : string) (e : Py.exn) :
  Forall (fun l => exists xy, holds py_float l xy) before ->
  parse_line py_float bad = inl e ->
  forall xs0 ys0,
    read_lines py_float (before ++ bad :: after) xs0 ys0 = inl e.
Proof.
  intros HF Hb. induction HF as [| l before [xy Hl] _ IH]; intros xs0 ys0;
    simpl.
  - now rewrite Hb.
  - unfold holds in Hl. rewrite Hl. simpl. apply IH.
Qed.

Lemma parse_blank (py_float : string -> option Q) (l : string) :
  blank l = true ->
  parse_line py_float l
  = inl (Py.ValueError "not enough values to unpack (expected 2, got 0)").
Proof.
  intros E. unfold parse_line. rewrite split_strip. unfold Py.split.
  rewrite (split_from_blank l E). reflexivity.
Qed.

(** ** The runs of [main] *)

(** What [main] does, case by case. *)
Lemma main_cases (argsort : list Q -> list nat)
    (py_float : string -> option Q) (in_path out_path : string) (fs : files) :
  main argsort py_float in_path out_path fs =
  match content_of fs in_path with
  | None => (inl (Py.OSError in_path), fs)
  | Some content =>
      match read_lines py_float (Py.lines content) [] [] with
      | inl e => (inl e, fs)
      | inr (xs, ys) =>
          match check_mon_conj argsort xs ys with
          | inl e => (inl e, fs)
          | inr r =>
              if can_write fs out_path
              then (inr tt, write_file fs out_path (result_line r))
              else (inl (Py.OSError out_path), fs)
          end
      end
  end.
Proof.
  unfold main, io_bind, read_data, io_lift, save_result.
  destruct (content_of fs in_path) as [content |]; [| reflexivity].
  destruct (read_lines py_float (Py.lines content) [] []) as [e | [xs ys]];
    [reflexivity |].
  cbn [fst snd].
  destruct (check_mon_conj argsort xs ys) as [e | r]; reflexivity.
Qed.

Lemma check_inr_len (argsort : list Q -> list nat) (xs ys : list Q)
    (r : Z * Z * NumPy.float2) :
  check_mon_conj argsort xs ys = inr r -> 9 <= Py.len xs.
Proof.
  unfold check_mon_conj.
  destruct (Z.ltb_spec (Py.len xs) 9); [discriminate | auto].
Qed.

Lemma check_total (argsort : list Q -> list nat) (xs ys : list Q) :
  NumPy.argsort_contract argsort ->
  length xs = length ys ->
  (Py.len xs < 9 /\
   check_mon_conj argsort xs ys = inl (Py.ValueError too_few_points)) \/
  (9 <= Py.len xs /\ exists r, check_mon_conj argsort xs ys = inr r).
Proof.
  intros Hc Hlen. unfold check_mon_conj.
  destruct (Z.ltb_spec (Py.len xs) 9); [left; auto | right].
  split; [assumption |].
  rewrite (get_ranks_ok argsort Hc) by lia. simpl. eauto.
Qed.

(** X1: [read_data] succeeds exactly when the input file exists and every
    line of it holds a sample; it then returns the x and the y of the
    lines, in the order of the lines, and leaves the files as they are. *)
Theorem X1_read_data_accepts (py_float : string -> option Q)
    (in_path : string) (fs fs' : files) (xs ys : list Q) :
  read_data py_float in_path fs = (inr (xs, ys), fs') <->
  fs' = fs /\
  exists content xys,
    content_of fs in_path = Some content /\
    Forall2 (holds py_float) (Py.lines content) xys /\
    xs = map fst xys /\ ys = map snd xys.
Proof.
  unfold read_data. destruct (content_of fs in_path) as [content |].
  - split.
    + intros H. injection H as H <-. split; [reflexivity |].
      apply read_lines_inr in H as [xys [HF [-> ->]]].
      exists content, xys. auto.
    + intros [-> [c [xys [Hc [HF [-> ->]]]]]]. injection Hc as <-.
      f_equal. apply read_lines_inr. exists xys. auto.
  - split; [discriminate |].
    intros [_ [c [xys [Hc _]]]]. discriminate.
Qed.

(** X2: a line holds the sample (x, y) exactly when splitting it at blanks
    gives two pieces and [float] reads x from the first and y from the
    second. *)
Theorem X2_line_holds (py_float : string -> option Q) (l : string) (x y : Q) :
  parse_line py_float l = inr (x, y) <->
  exists t1 t2,
    Py.split l = [t1; t2] /\ py_float t1 = Some x /\ py_float t2 = Some y.
Proof.
  unfold parse_line. rewrite split_strip.
  destruct (map_float py_float (Py.split l)) as [e | vs] eqn:Em; simpl.
  - split; [discriminate |]. intros [t1 [t2 [Hs [H1 H2]]]].
    rewrite Hs in Em. simpl in Em. rewrite H1, H2 in Em. discriminate.
  - apply map_float_inr in Em. split.
    + destruct vs as [| a [| b [| c vs]]]; intros H; try discriminate H.
      injection H as <- <-.
      inversion Em as [| t1 ? ts ? H1 Ht]; subst.
      inversion Ht as [| t2 ? ts' ? H2 Ht']; subst.
      inversion Ht'; subst. exists t1, t2. auto.
    + intros [t1 [t2 [Hs [H1 H2]]]]. rewrite Hs in Em.
      inversion Em as [| ? a ? vs' Ha Ht]; subst.
      inversion Ht as [| ? b ? vs'' Hb Ht']; subst.
      inversion Ht'; subst. unfold Py.ret. congruence.
Qed.

(** X3: blanks in front of a line and behind it (the newline among them)
    do not matter to what the line holds. *)
Theorem X3_blanks_around_line (py_float : string -> option Q)
    (ws1 l ws2 : string) :
  blank ws1 = true -> blank ws2 = true ->
  parse_line py_float (ws1 ++ l ++ ws2) = parse_line py_float l.
Proof.
  intros E1 E2. unfold parse_line. rewrite !split_strip. unfold Py.split.
  now rewrite (split_from_blank_l ws1 _ E1), (split_from_app_blank l ws2 E2).
Qed.

Lemma X3_blanks_around_line_witness :
  parse_line digits_float ("  " ++ "3 7" ++ (" " ++ nl))
  = parse_line digits_float "3 7".
Proof.
  apply (X3_blanks_around_line digits_float "  " "3 7" (" " ++ nl));
    reflexivity.
Defined.

(** X4: on an input file of ASCII characters, [read_data] raises the
    error of the first line that holds no sample, whatever the lines
    behind that line are, and leaves the files as they are. *)
Theorem X4_first_bad_line (py_float : string -> option Q)
    (in_path : string) (fs : files) (content : string)
    (before after : list string) (bad : string) (e : Py.exn) :
  content_of fs in_path = Some content ->
  every is_ascii content = true ->
  Py.lines content = before ++ bad :: after ->
  Forall (fun l => exists xy, holds py_float l xy) before ->
  parse_line py_float bad = inl e ->
  read_data py_float in_path fs = (inl e, fs).
Proof.
  intros Hc _ Hl HF Hb. unfold read_data. rewrite Hc, Hl.
  now rewrite (read_lines_first_bad py_float before after bad e HF Hb).
Qed.

Lemma X4_first_bad_line_witness :
  read_data digits_float "in.txt"
            (files_with ["1 9"; "2 8 7"; "x y"; "4"])
  = (inl (Py.ValueError "too many values to unpack (expected 2)"),
     files_with ["1 9"; "2 8 7"; "x y"; "4"]).
Proof.
  apply (X4_first_bad_line digits_float "in.txt"
           (files_with ["1 9"; "2 8 7"; "x y"; "4"])
           (String.concat "" (map (fun l => (l ++ nl)%string)
                                  ["1 9"; "2 8 7"; "x y"; "4"]))
           [("1 9" ++ nl)%string] [("x y" ++ nl)%string; ("4" ++ nl)%string]
           ("2 8 7" ++ nl)%string).
  - reflexivity.
  - vm_compute. reflexivity.
  - vm_compute. reflexivity.
  - constructor; [| constructor]. exists (1%Q, 9%Q). vm_compute. reflexivity.
  - vm_compute. reflexivity.
Defined.

(** X5: a line of blanks only (the empty line among them) holds no sample:
    it raises "not enough values to unpack (expected 2, got 0)", and a
    file with such a line anywhere makes [read_data] raise a ValueError. *)
Theorem X5_blank_line_rejected (py_float : string -> option Q)
    (in_path : string) (fs : files) (content l : string) :
  blank l = true ->
  content_of fs in_path = Some content ->
  In l (Py.lines content) ->
  parse_line py_float l
  = inl (Py.ValueError "not enough values to unpack (expected 2, got 0)") /\
  exists msg, read_data py_float in_path fs = (inl (Py.ValueError msg), fs).
Proof.
  intros E Hc Hin. split; [now apply parse_blank |].
  unfold read_data. rewrite Hc.
  destruct (read_lines_bad_line py_float _ l _ Hin (parse_blank py_float l E))
    as [msg ->].
  eauto.
Qed.

Lemma X5_blank_line_rejected_witness :
  parse_line digits_float nl
  = inl (Py.ValueError "not enough values to unpack (expected 2, got 0)") /\
  exists msg,
    read_data digits_float "in.txt" (files_with ["1 9"; ""; "2 8"])
    = (inl (Py.ValueError msg), files_with ["1 9"; ""; "2 8"]).
Proof.
  apply (X5_blank_line_rejected digits_float "in.txt"
           (files_with ["1 9"; ""; "2 8"])
           (String.concat "" (map (fun l => (l ++ nl)%string) ["1 9"; ""; "2 8"]))
           nl).
  - reflexivity.
  - reflexivity.
  - vm_compute. right. left. reflexivity.
Defined.



(** X7: a run of [main] that returns has replaced the output file by one
    result line and touched nothing else: every other file keeps its
    content and the writable paths are the same.  Such a run had an
    input file of at least nine lines and a writable output path. *)
Theorem X7_success_frame (argsort : list Q -> list nat)
    (py_float : string -> option Q) (in_path out_path : string)
    (fs fs' : files) :
  main argsort py_float in_path out_path fs = (inr tt, fs') ->
  (exists r, content_of fs' out_path = Some (result_line r)) /\
  (forall q, q <> out_path -> content_of fs' q = content_of fs q) /\
  can_write fs' = can_write fs /\
  can_write fs out_path = true /\
  exists content,
    content_of fs in_path = Some content /\
    (9 <= length (Py.lines content))%nat.
Proof.
  rewrite main_cases.
  destruct (content_of fs in_path) as [content |]; [| discriminate].
  destruct (read_lines py_float (Py.lines content) [] []) as [e1 | [xs ys]] eqn:Er;
    [discriminate |].
  destruct (check_mon_conj argsort xs ys) as [e2 | r] eqn:Ec; [discriminate |].
  destruct (can_write fs out_path) eqn:Ew; [| discriminate].
  intros H. injection H as <-.
  split; [exists r; cbn; now rewrite String.eqb_refl |].
  split.
  { intros q Hq. cbn. destruct (String.eqb_spec q out_path); congruence. }
  split; [reflexivity |]. split; [reflexivity |].
  exists content. split; [reflexivity |].
  apply check_inr_len in Ec. apply read_lines_count in Er as [Hx _].
  unfold Py.len in Ec. lia.
Qed.

Lemma X7_success_frame_witness :
  (exists r,
      content_of (write_file (files_with lines_decreasing) "out.txt"
                             ("-18 7 -1.0" ++ nl)) "out.txt"
      = Some (result_line r)) /\
  (forall q, q <> "out.txt" ->
     content_of (write_file (files_with lines_decreasing) "out.txt"
                            ("-18 7 -1.0" ++ nl)) q
     = content_of (files_with lines_decreasing) q) /\
  can_write (write_file (files_with lines_decreasing) "out.txt"
                        ("-18 7 -1.0" ++ nl))
  = can_write (files_with lines_decreasing) /\
  can_write (files_with lines_decreasing) "out.txt" = true /\
  exists content,
    content_of (files_with lines_decreasing) "in.txt" = Some content /\
    (9 <= length (Py.lines content))%nat.
Proof.
  apply (X7_success_frame (insertion_argsort false) digits_float
           "in.txt" "out.txt").
  vm_compute. reflexivity.
Defined.

(** A line of two numerals that [float] reads holds a sample. *)
Lemma numeral_line_holds (py_float : string -> option Q) (l : string) :
  (forall t, short_numeral t = true -> py_float t <> None) ->
  numeral_line l -> exists xy, holds py_float l xy.
Proof.
  intros Hf [t1 [t2 [Hs [H1 H2]]]].
  apply Hf in H1, H2.
  destruct (py_float t1) as [x |] eqn:E1; [| congruence].
  destruct (py_float t2) as [y |] eqn:E2; [| congruence].
  exists (x, y). unfold holds, parse_line.
  rewrite split_strip, Hs. simpl. rewrite E1, E2. reflexivity.
Qed.

Lemma Forall_Forall2 {A B : Type} (R : A -> B -> Prop) (l : list A) :
  Forall (fun a => exists b, R a b) l -> exists l', Forall2 R l l'.
Proof.
  induction 1 as [| a l [b Hb] _ [l' IH]].
  - exists []. constructor.
  - exists (b :: l'). now constructor.
Qed.

(** X8: an input file of at least nine lines, each made of two plain
    decimal numerals of at most 100 characters with blanks around and
    between them, and an output path that can be opened for writing, are
    enough for [main] to return: it reads every line, the indicators are
    computed without an error, and the output file gets their line. *)
Theorem X8_numeral_file_succeeds (argsort : list Q -> list nat)
    (py_float : string -> option Q) (in_path out_path : string)
    (fs : files) (content : string) :
  NumPy.argsort_contract argsort ->
  (forall t, short_numeral t = true -> py_float t <> None) ->
  content_of fs in_path = Some content ->
  Forall numeral_line (Py.lines content) ->
  (9 <= length (Py.lines content))%nat ->
  can_write fs out_path = true ->
  exists xs ys r,
    read_data py_float in_path fs = (inr (xs, ys), fs) /\
    length xs = length (Py.lines content) /\
    check_mon_conj argsort xs ys = inr r /\
    main argsort py_float in_path out_path fs
    = (inr tt, write_file fs out_path (result_line r)).
Proof.
  intros Hc Hf Hin Hl Hn Hw.
  assert (Forall (fun l => exists xy, holds py_float l xy) (Py.lines content))
    as HF.
  { revert Hl. apply Forall_impl. intros l. now apply numeral_line_holds. }
  destruct (Forall_Forall2 _ _ HF) as [xys Hxys].
  assert (read_lines py_float (Py.lines content) [] []
          = inr (map fst xys, map snd xys)) as Er
    by (apply read_lines_inr; exists xys; auto).
  pose proof (Forall2_length Hxys) as Hlen.
  exists (map fst xys), (map snd xys).
  destruct (check_total argsort (map fst xys) (map snd xys) Hc)
    as [[Hlt _] | [_ [r Hr]]].
  - now rewrite !length_map.
  - unfold Py.len in Hlt. rewrite length_map in Hlt. lia.
  - exists r. split; [unfold read_data; now rewrite Hin, Er |].
    split; [rewrite length_map; lia |]. split; [exact Hr |].
    rewrite main_cases, Hin, Er, Hr, Hw. reflexivity.
Qed.

Lemma X8_numeral_file_succeeds_witness :
  exists xs ys r,
    read_data decimal_float "in.txt" (files_with lines_decimal)
    = (inr (xs, ys), files_with lines_decimal) /\
    length xs
    = length (Py.lines (String.concat ""
                          (map (fun l => (l ++ nl)%string) lines_decimal))) /\
    check_mon_conj (insertion_argsort false) xs ys = inr r /\
    main (insertion_argsort false) decimal_float "in.txt" "out.txt"
         (files_with lines_decimal)
    = (inr tt, write_file (files_with lines_decimal) "out.txt" (result_line r)).
Proof.
  apply (X8_numeral_file_succeeds (insertion_argsort false) decimal_float
           "in.txt" "out.txt" (files_with lines_decimal)
           (String.concat "" (map (fun l => (l ++ nl)%string) lines_decimal))
           (insertion_argsort_contract false)).
  - intros t H. unfold short_numeral in H. apply andb_prop in H as [H _].
    unfold decimal_float. rewrite H. discriminate.
  - reflexivity.
  - vm_compute.
    repeat (constructor;
            [eexists; eexists; split; [reflexivity | split; reflexivity] |]).
    constructor.
  - vm_compute. lia.
  - reflexivity.
Defined.

(** X9: with a sort that meets the contract of [np.argsort], [main] never
    raises an IndexError: [read_data] returns as many ys as xs, so the
    indexing of [get_ranks] stays in range. *)
Theorem X9_main_no_index_error (argsort : list Q -> list nat)
    (py_float : string -> option Q) (in_path out_path : string)
    (fs : files) (msg : string) :
  NumPy.argsort_contract argsort ->
  fst (main argsort py_float in_path out_path fs) <> inl (Py.IndexError msg).
Proof.
  intros Hc. rewrite main_cases.
  destruct (content_of fs in_path) as [content |]; [| discriminate].
  destruct (read_lines py_float (Py.lines content) [] []) as [e1 | [xs ys]] eqn:Er.
  - destruct (read_lines_error _ _ _ _ _ Er) as [m ->]. discriminate.
  - apply read_lines_lengths in Er; [| reflexivity].
    destruct (check_total argsort xs ys Hc Er) as [[_ ->] | [_ [r ->]]];
      [discriminate |].
    destruct (can_write fs out_path); discriminate.
Qed.

Lemma X9_main_no_index_error_witness :
  fst (main (insertion_argsort false) digits_float "in.txt" "out.txt"
            (files_with lines_eight))
  <> inl (Py.IndexError "index out of bounds").
Proof.
  apply (X9_main_no_index_error (insertion_argsort false) digits_float
           "in.txt" "out.txt" (files_with lines_eight) "index out of bounds"
           (insertion_argsort_contract false)).
Defined.

(** X10: a missing input file makes [main] raise an OSError for the input
    path; an input file of fewer than nine lines always ends in a
    ValueError (of the first line that holds no sample, or of the
    nine-point gate).  The files stay as they are in both cases. *)
Theorem X10_missing_or_short_input (argsort : list Q -> list nat)
    (py_float : string -> option Q) (in_path out_path : string) (fs : files) :
  (content_of fs in_path = None ->
   main argsort py_float in_path out_path fs = (inl (Py.OSError in_path), fs)) /\
  (forall content,
      content_of fs in_path = Some content ->
      (length (Py.lines content) < 9)%nat ->
      exists msg,
        main argsort py_float in_path out_path fs
        = (inl (Py.ValueError msg), fs)).
Proof.
  rewrite main_cases. split.
  - intros ->. reflexivity.
  - intros content Hf Hn. rewrite Hf.
    destruct (read_lines py_float (Py.lines content) [] []) as [e1 | [xs ys]] eqn:Er.
    + destruct (read_lines_error _ _ _ _ _ Er) as [m ->]. eauto.
    + apply read_lines_count in Er as [Hx _].
      unfold check_mon_conj.
      destruct (Z.ltb_spec (Py.len xs) 9) as [_ | Hge];
        [eexists; reflexivity |].
      unfold Py.len in Hge. lia.
Qed.

Lemma X10_missing_or_short_input_witness :
  main (insertion_argsort false) digits_float "nowhere.txt" "out.txt"
       (files_with lines_eight)
  = (inl (Py.OSError "nowhere.txt"), files_with lines_eight) /\
  exists msg,
    main (insertion_argsort false) digits_float "in.txt" "out.txt"
         (files_with ["1 9"; "2"])
    = (inl (Py.ValueError msg), files_with ["1 9"; "2"]).
Proof.
  split.
  - apply (proj1 (X10_missing_or_short_input
                    (insertion_argsort false) digits_float
                    "nowhere.txt" "out.txt" (files_with lines_eight))).
    reflexivity.
  - apply (proj2 (X10_missing_or_short_input
                    (insertion_argsort false) digits_float
                    "in.txt" "out.txt" (files_with ["1 9"; "2"]))
                 (String.concat "" (map (fun l => (l ++ nl)%string)
                                        ["1 9"; "2"]))).
    + reflexivity.
    + vm_compute. lia.
Defined.

(** ** Rounding and truncation as functions of the value *)

(** [round] returns the nearest integer and, at a tie, the even one. *)
Lemma round_spec (q : Q) :
  (inject_Z (Py.round q) - (1 # 2) <= q <= inject_Z (Py.round q) + (1 # 2))%Q /\
  ((q == inject_Z (Py.round q) - (1 # 2))%Q \/
   (q == inject_Z (Py.round q) + (1 # 2))%Q -> Z.even (Py.round q) = true).
Proof.
  split; [apply round_near |].
  unfold Py.round.
  pose proof (Qfloor_le q) as Hlo. pose proof (Qlt_floor q) as Hhi.
  rewrite inject_Z_plus in Hhi. change (inject_Z 1) with 1%Q in Hhi.
  destruct (Qcompare (q - inject_Z (Qfloor q)) (1 # 2)) eqn:E.
  - apply Qeq_alt in E. destruct (Z.even (Qfloor q)) eqn:Ev; intros _.
    + exact Ev.
    + rewrite Z.even_add, Ev. reflexivity.
  - apply Qlt_alt in E. intros [H | H]; lra.
  - apply Qgt_alt in E. rewrite inject_Z_plus.
    change (inject_Z 1) with 1%Q. intros [H | H]; lra.
Qed.

Lemma round_unique (q : Q) (k : Z) :
  (inject_Z k - (1 # 2) <= q <= inject_Z k + (1 # 2))%Q ->
  ((q == inject_Z k - (1 # 2))%Q \/ (q == inject_Z k + (1 # 2))%Q ->
   Z.even k = true) ->
  Py.round q = k.
Proof.
  intros [Hlo Hhi] Hev.
  destruct (round_spec q) as [[Rlo Rhi] Rev].
  set (r := Py.round q) in *.
  assert (inject_Z (r - k) <= 1)%Q as H1.
  { unfold Zminus. rewrite inject_Z_plus, inject_Z_opp. lra. }
  assert (inject_Z (k - r) <= 1)%Q as H2.
  { unfold Zminus. rewrite inject_Z_plus, inject_Z_opp. lra. }
  change 1%Q with (inject_Z 1) in H1, H2.
  rewrite <- Zle_Qle in H1, H2.
  assert (r = k \/ r = k + 1 \/ k = r + 1) as [E | [E | E]] by lia;
    [exact E | exfalso | exfalso].
  - assert (inject_Z r == inject_Z k + 1)%Q as Er
      by (rewrite E, inject_Z_plus; reflexivity).
    assert (Z.even k = true) as Ek by (apply Hev; right; lra).
    assert (Z.even r = true) as Err by (apply Rev; left; lra).
    rewrite E, Z.even_add, Ek in Err. discriminate.
  - assert (inject_Z k == inject_Z r + 1)%Q as Er
      by (rewrite E, inject_Z_plus; reflexivity).
    assert (Z.even k = true) as Ek by (apply Hev; left; lra).
    assert (Z.even r = true) as Err by (apply Rev; right; lra).
    rewrite E, Z.even_add, Err in Ek. discriminate.
Qed.

Lemma round_proper (q1 q2 : Q) : (q1 == q2)%Q -> Py.round q1 = Py.round q2.
Proof.
  intros E. apply round_unique.
  - destruct (round_spec q2) as [H _]. lra.
  - destruct (round_spec q2) as [_ H]. intros [A | A]; apply H; lra.
Qed.

Lemma round_opp (q : Q) : Py.round (- q) = - Py.round q.
Proof.
  apply round_unique.
  - destruct (round_spec q) as [H _]. rewrite inject_Z_opp. lra.
  - destruct (round_spec q) as [_ H]. rewrite inject_Z_opp.
    intros A. rewrite Z.even_opp. apply H. destruct A; [right | left]; lra.
Qed.

Lemma int_unique (q : Q) (k : Z) :
  ((0 <= q -> inject_Z k <= q /\ q < inject_Z k + 1) /\
   (q <= 0 -> inject_Z k - 1 < q /\ q <= inject_Z k))%Q ->
  Py.int q = k.
Proof.
  intros [Hp Hn]. destruct (int_truncates q) as [Ip In_].
  set (d := Py.int q) in *.
  assert (forall a b : Z, (inject_Z a < inject_Z b + 1)%Q -> a <= b) as lt1.
  { intros a b H. change 1%Q with (inject_Z 1) in H.
    rewrite <- inject_Z_plus, <- Zlt_Qlt in H. lia. }
  destruct (Qlt_le_dec q 0) as [Hq | Hq].
  - destruct (Hn ltac:(lra)) as [A B]. destruct (In_ ltac:(lra)) as [C D].
    assert (d <= k) by (apply lt1; lra).
    assert (k <= d) by (apply lt1; lra). lia.
  - destruct (Hp Hq) as [A B]. destruct (Ip Hq) as [C D].
    assert (d <= k) by (apply lt1; lra).
    assert (k <= d) by (apply lt1; lra). lia.
Qed.

Lemma int_proper (q1 q2 : Q) : (q1 == q2)%Q -> Py.int q1 = Py.int q2.
Proof.
  intros E. apply int_unique.
  destruct (int_truncates q2) as [Ip In_].
  split; intros H.
  - destruct (Ip ltac:(lra)). lra.
  - destruct (In_ ltac:(lra)). lra.
Qed.

Lemma int_opp (q : Q) : Py.int (- q) = - Py.int q.
Proof.
  destruct q as [n d]. unfold Py.int. cbn [Qopp Qnum Qden].
  apply Z.quot_opp_l. discriminate.
Qed.

Lemma int_of_Z (z : Z) (q : Q) : (q == inject_Z z)%Q -> Py.int q = z.
Proof.
  intros E. rewrite (int_proper _ _ E). unfold Py.int, inject_Z.
  cbn [Qnum Qden]. apply Z.quot_1_r.
Qed.

(** ** The partition and the three indicators *)

Lemma round_third (N : Z) :
  Py.round (inject_Z N / 3) = (N + 1) / 3 /\
  -1 <= N - 3 * Py.round (inject_Z N / 3) <= 1.
Proof.
  pose proof (round_near (inject_Z N / 3)) as [Hlo Hhi].
  set (p := Py.round (inject_Z N / 3)) in *.
  unfold Qdiv in *. change (/ 3)%Q with (1 # 3)%Q in *.
  assert (inject_Z (6 * p - 3) <= inject_Z (2 * N))%Q as H1.
  { unfold Zminus. rewrite inject_Z_plus, !inject_Z_mult.
    change (inject_Z 6) with 6%Q. change (inject_Z 2) with 2%Q.
    change (inject_Z (- (3))) with (- (3))%Q. lra. }
  assert (inject_Z (2 * N) <= inject_Z (6 * p + 3))%Q as H2.
  { rewrite inject_Z_plus, !inject_Z_mult.
    change (inject_Z 6) with 6%Q. change (inject_Z 2) with 2%Q.
    change (inject_Z 3) with 3%Q. lra. }
  rewrite <- Zle_Qle in H1, H2.
  assert (-1 <= N - 3 * p <= 1) as Hp by lia.
  split; [| exact Hp].
  apply Z.div_unique with (r := N + 1 - 3 * p); lia.
Qed.

(** X11: [round (N / 3)] is [(N + 1) // 3] for every integer N: N / 3 is
    never half-way between two integers, so the rule for ties of [round]
    never comes into play, and p differs from N / 3 by one third at
    most. *)
Theorem X11_partition_size (N : Z) :
  Py.round (inject_Z N / 3) = (N + 1) / 3 /\
  -1 <= N - 3 * Py.round (inject_Z N / 3) <= 1 /\
  ~ (inject_Z N / 3 - inject_Z (Qfloor (inject_Z N / 3)) == 1 # 2)%Q.
Proof.
  destruct (round_third N) as [H1 H2]. split; [exact H1 |].
  split; [exact H2 |].
  pose proof (Qfloor_le (inject_Z N / 3)) as Flo.
  set (f := Qfloor (inject_Z N / 3)) in *.
  unfold Qdiv in *. change (/ 3)%Q with (1 # 3)%Q in *.
  intros E.
  assert (inject_Z (2 * N) == inject_Z (6 * f + 3))%Q as H3.
  { rewrite inject_Z_plus, !inject_Z_mult.
    change (inject_Z 6) with 6%Q. change (inject_Z 2) with 2%Q.
    change (inject_Z 3) with 3%Q. lra. }
  rewrite inject_Z_injective in H3. lia.
Qed.

(** X12: for nine points or more the two groups [ranks[:p]] and
    [ranks[-p:]] hold p ranks each, share no position, and leave at
    least three ranks between them. *)
Theorem X12_groups_disjoint (ranks : list Q) :
  9 <= Py.len ranks ->
  let p := Py.round (inject_Z (Py.len ranks) / 3) in
  exists mid,
    ranks = Py.slice_upto ranks p ++ mid ++ Py.slice_from ranks (- p) /\
    Py.len (Py.slice_upto ranks p) = p /\
    Py.len (Py.slice_from ranks (- p)) = p /\
    3 <= Py.len mid.
Proof.
  intros HN p. destruct (partition_size _ HN) as [Hp3 Hp2]. fold p in Hp3, Hp2.
  destruct (round_third (Py.len ranks)) as [_ Hp]. fold p in Hp.
  rewrite slice_upto_firstn, slice_from_skipn by lia.
  set (n := Z.to_nat p).
  exists (firstn (Z.to_nat (Py.len ranks - 2 * p)) (skipn n ranks)).
  unfold Py.len in *.
  assert (skipn (Z.to_nat (Z.of_nat (length ranks) - p)) ranks
          = skipn (Z.to_nat (Z.of_nat (length ranks) - 2 * p)) (skipn n ranks))
    as ->.
  { rewrite skipn_skipn. f_equal. unfold n. lia. }
  rewrite firstn_skipn, firstn_skipn.
  repeat split.
  - rewrite length_firstn. unfold n. lia.
  - rewrite !length_skipn. unfold n. lia.
  - rewrite length_firstn, length_skipn. unfold n. lia.
Qed.

Lemma X12_groups_disjoint_witness :
  let p := Py.round (inject_Z (Py.len xs9) / 3) in
  exists mid,
    xs9 = Py.slice_upto xs9 p ++ mid ++ Py.slice_from xs9 (- p) /\
    Py.len (Py.slice_upto xs9 p) = p /\
    Py.len (Py.slice_from xs9 (- p)) = p /\
    3 <= Py.len mid.
Proof.
  apply (X12_groups_disjoint xs9). vm_compute. discriminate.
Defined.

(** X13: the second component of a result is never below 7, so the
    standard deviation returned is never zero.  For at most 100000
    points it is the integer nearest to (N + 0.5) * sqrt (p / 6): with
    s the component and v the square of that quantity,
    (s - 1/2)^2 <= v <= (s + 1/2)^2.  (Up to that size the double the
    source rounds is on the same side of every half-integer as the exact
    quantity.) *)
Theorem X13_std_nearest (argsort : list Q -> list nat) (xs ys : list Q)
    (d s : Z) (r : NumPy.float2) :
  check_mon_conj argsort xs ys = inr (d, s, r) ->
  let N := Py.len xs in
  let p := Py.round (inject_Z N / 3) in
  let v := ((inject_Z N + (1 # 2)) * (inject_Z N + (1 # 2))
            * (inject_Z p / 6))%Q in
  7 <= s /\
  (N <= 100000 ->
   (inject_Z ((2 * s - 1) * (2 * s - 1)) <= 4 * v)%Q /\
   (4 * v <= inject_Z ((2 * s + 1) * (2 * s + 1)))%Q).
Proof.
  intros H N p v. pose proof (check_inr_len _ _ _ _ H) as HN. fold N in HN.
  destruct (partition_size _ HN) as [Hp3 _]. fold p in Hp3.
  unfold check_mon_conj in H. fold N in H.
  destruct (Z.ltb_spec N 9); [lia |].
  destruct (get_ranks argsort xs ys) as [e | ranks]; [discriminate |].
  simpl in H. injection H as _ Hs _. fold p in Hs.
  unfold Py.round_mul_sqrt in Hs. fold v in Hs.
  assert (361 # 8 <= v)%Q as Hv.
  { unfold v. rewrite Zle_Qle in HN, Hp3.
    change (inject_Z 9) with 9%Q in HN. change (inject_Z 3) with 3%Q in Hp3.
    unfold Qdiv. change (/ 6)%Q with (1 # 6)%Q.
    assert (19 # 2 <= inject_Z N + (1 # 2))%Q by lra.
    assert (1 # 2 <= inject_Z p * (1 # 6))%Q by lra.
    nra. }
  destruct (round_sqrt_near v ltac:(lra)) as [K0 [K1 K2]].
  rewrite Hs in K0, K1, K2.
  assert (7 <= s) as H7.
  { assert (inject_Z 180 < inject_Z ((2 * s + 1) * (2 * s + 1)))%Q as L
      by (change (inject_Z 180) with 180%Q; lra).
    rewrite <- Zlt_Qlt in L. nia. }
  split; [exact H7 |]. intros _. split; [apply K2; lia | exact K1].
Qed.

Lemma X13_std_nearest_witness :
  let N := Py.len xs9 in
  let p := Py.round (inject_Z N / 3) in
  let v := ((inject_Z N + (1 # 2)) * (inject_Z N + (1 # 2))
            * (inject_Z p / 6))%Q in
  7 <= 7 /\
  (inject_Z ((2 * 7 - 1) * (2 * 7 - 1)) <= 4 * v)%Q /\
  (4 * v <= inject_Z ((2 * 7 + 1) * (2 * 7 + 1)))%Q.
Proof.
  destruct (X13_std_nearest (insertion_argsort false) xs9 ys_tied
              (-17) 7 (NumPy.Float2 true 97)) as [H7 Hn].
  - vm_compute. reflexivity.
  - split; [exact H7 |]. apply Hn. vm_compute. discriminate.
Defined.

(** The doubled difference of the rank sums of a run, its bound, and the
    first component as its truncated half. *)
Lemma difference_halves (argsort : list Q -> list nat) (xs ys : list Q)
    (d s : Z) (r : NumPy.float2) :
  NumPy.argsort_contract argsort ->
  length xs = length ys ->
  check_mon_conj argsort xs ys = inr (d, s, r) ->
  exists i z,
    raw_indicators argsort xs ys = inr i /\
    (fst i == z # 2)%Q /\
    (z = 2 * d \/ (0 < z /\ z = 2 * d + 1) \/ (z < 0 /\ z = 2 * d - 1)) /\
    let p := Py.round (inject_Z (Py.len xs) / 3) in
    Z.abs z <= 2 * (p * (Py.len xs - p)) /\
    (snd i == fst i / inject_Z (p * (Py.len xs - p)))%Q /\
    0 < p * (Py.len xs - p) /\
    r = NumPy.round2 (snd i).
Proof.
  intros Hc Hlen H. pose proof (check_inr_len _ _ _ _ H) as HN.
  destruct (raw_indicators_ok argsort Hc xs ys ltac:(lia) HN)
    as [i [Hi [Hf Hs]]].
  destruct (raw_indicators_bounds argsort Hc xs ys ltac:(lia) HN)
    as [i' [Hi' [Hb _]]].
  rewrite Hi in Hi'. injection Hi' as <-. cbv zeta in *.
  destruct (partition_size _ HN) as [Hp3 Hp2].
  set (p := Py.round (inject_Z (Py.len xs) / 3)) in *.
  set (z := head2 (ranked argsort xs ys) p - tail2 (ranked argsort xs ys) p) in *.
  rewrite (check_mon_conj_raw argsort xs ys HN), Hi in H. simpl in H.
  injection H as Hd _ Hr.
  exists i, z. split; [exact Hi |]. split; [exact Hf |].
  assert (0 < p * (Py.len xs - p)) as HD by nia.
  apply Qabs_Qle_condition in Hb. rewrite Hf in Hb.
  assert (- (2 * (p * (Py.len xs - p))) <= z <= 2 * (p * (Py.len xs - p)))
    as Hz.
  { destruct Hb as [B1 B2]. unfold Qle, Qopp, inject_Z in B1, B2.
    cbn [Qnum Qden] in B1, B2. lia. }
  destruct (int_truncates (fst i)) as [Ip In_]. rewrite Hd in Ip, In_.
  split; [| split; [lia | split; [exact Hs | split; [exact HD | now symmetry]]]].
  destruct (Z_lt_le_dec z 0) as [Hneg | Hpos].
  - assert (fst i <= 0)%Q as Hq
      by (rewrite Hf; unfold Qle; cbn [Qnum Qden]; lia).
    destruct (In_ Hq) as [A B]. rewrite Hf in A, B.
    unfold Qle, Qlt, Qminus, Qplus, Qopp, inject_Z in A, B.
    cbn [Qnum Qden] in A, B. lia.
  - assert (0 <= fst i)%Q as Hq
      by (rewrite Hf; unfold Qle; cbn [Qnum Qden]; lia).
    destruct (Ip Hq) as [A B]. rewrite Hf in A, B.
    unfold Qle, Qlt, Qplus, inject_Z in A, B.
    cbn [Qnum Qden] in A, B. lia.
Qed.

(** X14: with as many ys as xs, the first component of a result is R1 - R2
    itself when that is whole and R1 - R2 moved by one half toward zero
    otherwise; its absolute value is at most p (N - p). *)
Theorem X14_difference_half (argsort : list Q -> list nat) (xs ys : list Q)
    (d s : Z) (r : NumPy.float2) :
  NumPy.argsort_contract argsort ->
  length xs = length ys ->
  check_mon_conj argsort xs ys = inr (d, s, r) ->
  exists i,
    raw_indicators argsort xs ys = inr i /\
    ((fst i == inject_Z d)%Q \/
     (0 < fst i /\ fst i == inject_Z d + (1 # 2))%Q \/
     (fst i < 0 /\ fst i == inject_Z d - (1 # 2))%Q) /\
    let p := Py.round (inject_Z (Py.len xs) / 3) in
    Z.abs d <= p * (Py.len xs - p).
Proof.
  intros Hc Hlen H.
  destruct (difference_halves argsort xs ys d s r Hc Hlen H)
    as [i [z [Hi [Hf [Hz [Hb _]]]]]].
  exists i. split; [exact Hi |]. cbv zeta in *. split; [| lia].
  destruct Hz as [-> | [[Hp ->] | [Hn ->]]]; [left | right; left | right; right].
  - rewrite Hf. unfold Qeq, inject_Z. cbn [Qnum Qden]. lia.
  - split; rewrite Hf.
    + unfold Qlt. cbn [Qnum Qden]. lia.
    + unfold Qeq, Qplus, inject_Z. cbn [Qnum Qden]. lia.
  - split; rewrite Hf.
    + unfold Qlt. cbn [Qnum Qden]. lia.
    + unfold Qeq, Qminus, Qplus, Qopp, inject_Z. cbn [Qnum Qden]. lia.
Qed.

Lemma X14_difference_half_witness :
  exists i,
    raw_indicators (insertion_argsort false) xs9 ys_tied = inr i /\
    ((fst i == inject_Z (-17))%Q \/
     (0 < fst i /\ fst i == inject_Z (-17) + (1 # 2))%Q \/
     (fst i < 0 /\ fst i == inject_Z (-17) - (1 # 2))%Q) /\
    let p := Py.round (inject_Z (Py.len xs9) / 3) in
    Z.abs (-17) <= p * (Py.len xs9 - p).
Proof.
  apply (X14_difference_half (insertion_argsort false) xs9 ys_tied
           (-17) 7 (NumPy.Float2 true 97)
           (insertion_argsort_contract false) eq_refl).
  vm_compute. reflexivity.
Defined.

(** X15: with as many ys as xs, the rate returned is a whole number of
    hundredths between -1.00 and 1.00 next to the exact rate: the two
    differ by less than 0.0051 (half a hundredth from the rounding, and
    room for a rate that lies almost half-way between two hundredths,
    which the double operations of the source can move to either one).
    The rate carries a minus sign exactly when R1 < R2. *)
Theorem X15_rate_rounded (argsort : list Q -> list nat) (xs ys : list Q)
    (d s : Z) (r : NumPy.float2) :
  NumPy.argsort_contract argsort ->
  length xs = length ys ->
  check_mon_conj argsort xs ys = inr (d, s, r) ->
  exists i,
    raw_indicators argsort xs ys = inr i /\
    (Qabs (NumPy.float2_Q r - snd i) < 51 # 10000)%Q /\
    0 <= NumPy.f2_hundredths r <= 100 /\
    (NumPy.f2_neg r = true <-> (fst i < 0)%Q).
Proof.
  intros Hc Hlen H.
  destruct (difference_halves argsort xs ys d s r Hc Hlen H)
    as [i [z [Hi [Hf [_ [Hb [Hs [HD Hr]]]]]]]].
  cbv zeta in *.
  set (D := Py.round (inject_Z (Py.len xs) / 3)
            * (Py.len xs - Py.round (inject_Z (Py.len xs) / 3))) in *.
  exists i. split; [exact Hi |].
  assert (0 < inject_Z D)%Q as HD'
    by (unfold Qlt, inject_Z; cbn [Qnum Qden]; lia).
  assert (- inject_Z D <= fst i <= inject_Z D)%Q as Hfb.
  { rewrite Hf. unfold Qle, Qopp, inject_Z. cbn [Qnum Qden]. lia. }
  assert (- (1) <= snd i <= 1)%Q as Hq.
  { rewrite Hs. split.
    - apply Qle_shift_div_l; [exact HD' |]. lra.
    - apply Qle_shift_div_r; [exact HD' |]. lra. }
  assert (snd i < 0 <-> fst i < 0)%Q as Hsign.
  { rewrite Hs. split; intros A.
    - destruct (Qlt_le_dec (fst i) 0) as [|B]; [assumption |].
      assert (0 <= fst i / inject_Z D)%Q
        by (apply Qle_shift_div_l; [exact HD' | lra]).
      lra.
    - apply Qlt_shift_div_r; [exact HD' | lra]. }
  destruct (round_near (snd i * 100)) as [Rlo Rhi].
  set (k := Py.round (snd i * 100)) in *.
  assert (inject_Z (-101) < inject_Z k)%Q as K1
    by (change (inject_Z (-101)) with (- (101))%Q; lra).
  assert (inject_Z k < inject_Z 101)%Q as K2
    by (change (inject_Z 101) with 101%Q; lra).
  rewrite <- Zlt_Qlt in K1, K2.
  subst r. cbn [NumPy.round2 NumPy.f2_hundredths NumPy.f2_neg]. fold k.
  split; [| split; [lia |]].
  - unfold NumPy.float2_Q.
    cbn [NumPy.round2 NumPy.f2_neg NumPy.f2_hundredths]. fold k.
    apply Qle_lt_trans with (1 # 200)%Q; [| reflexivity].
    apply Qabs_Qle_condition.
    destruct (Qle_bool 0 (snd i)) eqn:E; cbn [negb].
    + apply Qle_bool_iff in E.
      assert (inject_Z (-1) < inject_Z k)%Q as K3
        by (change (inject_Z (-1)) with (- (1))%Q; lra).
      rewrite <- Zlt_Qlt in K3. rewrite Z.abs_eq by lia.
      assert (k # 100 == inject_Z k * (1 # 100))%Q as ->
        by (unfold Qeq, Qmult, inject_Z; cbn [Qnum Qden]; lia).
      lra.
    + assert (snd i < 0)%Q as E'.
      { apply Qnot_le_lt. intros A. apply Qle_bool_iff in A. congruence. }
      assert (inject_Z k < inject_Z 1)%Q as K3
        by (change (inject_Z 1) with 1%Q; lra).
      rewrite <- Zlt_Qlt in K3. rewrite Z.abs_neq by lia.
      rewrite Z.opp_involutive.
      assert (k # 100 == inject_Z k * (1 # 100))%Q as ->
        by (unfold Qeq, Qmult, inject_Z; cbn [Qnum Qden]; lia).
      lra.
  - rewrite <- Hsign. destruct (Qle_bool 0 (snd i)) eqn:E; cbn [negb].
    + apply Qle_bool_iff in E. split; [discriminate | lra].
    + split; [| reflexivity]. intros _.
      apply Qnot_le_lt. intros A. apply Qle_bool_iff in A. congruence.
Qed.

Lemma X15_rate_rounded_witness :
  exists i,
    raw_indicators (insertion_argsort false) xs9 ys_tied = inr i /\
    (Qabs (NumPy.float2_Q (NumPy.Float2 true 97) - snd i) < 51 # 10000)%Q /\
    0 <= NumPy.f2_hundredths (NumPy.Float2 true 97) <= 100 /\
    (NumPy.f2_neg (NumPy.Float2 true 97) = true <-> (fst i < 0)%Q).
Proof.
  apply (X15_rate_rounded (insertion_argsort false) xs9 ys_tied
           (-17) 7 (NumPy.Float2 true 97)
           (insertion_argsort_contract false) eq_refl).
  vm_compute. reflexivity.
Defined.

(** ** The ranks *)

Lemma take_inr (a : list Q) (idx : list nat) (vs : list Q) :
  NumPy.take a idx = inr vs ->
  vs = reorder a idx /\ Forall (fun i => (i < length a)%nat) idx.
Proof.
  revert vs. induction idx as [| i idx IH]; intros vs; simpl.
  - intros H. injection H as <-. split; constructor.
  - destruct (nth_error a i) as [v |] eqn:E; [| discriminate].
    destruct (NumPy.take a idx) as [e | vs']; [discriminate |]. simpl.
    intros H. injection H as <-. destruct (IH vs' eq_refl) as [-> HF].
    split.
    + f_equal. symmetry. now apply nth_error_nth.
    + constructor; [| exact HF]. apply nth_error_Some. congruence.
Qed.

Lemma get_ranks_inr (argsort : list Q -> list nat) (xs ys ranks : list Q) :
  get_ranks argsort xs ys = inr ranks ->
  ranks = SciPy.rankdata (ranked argsort xs ys) /\
  length ranks = length (argsort xs) /\
  Forall (fun i => (i < length ys)%nat) (argsort xs).
Proof.
  unfold get_ranks.
  destruct (NumPy.take xs (argsort xs)) as [e | xs']; [discriminate |]. simpl.
  destruct (NumPy.take ys (argsort xs)) as [e | ys'] eqn:E; [discriminate |].
  simpl. intros H. injection H as <-.
  destruct (take_inr _ _ _ E) as [-> HF]. split; [reflexivity |].
  split; [| exact HF].
  unfold SciPy.rankdata, reorder. now rewrite !length_map.
Qed.

Lemma count_mono (f g : Q -> bool) (l : list Q) :
  (forall w, f w = true -> g w = true) -> SciPy.count f l <= SciPy.count g l.
Proof.
  intros H. induction l as [| w l IH]; cbn [SciPy.count]; [lia |].
  destruct (f w) eqn:Ef; [rewrite (H w Ef) | destruct (g w)]; lia.
Qed.

Lemma count_miss (f : Q -> bool) (l : list Q) (v : Q) :
  In v l -> f v = false -> SciPy.count f l + 1 <= Py.len l.
Proof.
  unfold Py.len. intros Hin Hf. induction l as [| w l IH]; [destruct Hin |].
  cbn [SciPy.count length]. pose proof (count_bounds f l) as B.
  unfold Py.len in B. destruct Hin as [-> | Hin].
  - rewrite Hf. lia.
  - specialize (IH Hin). destruct (f w); lia.
Qed.

Lemma Qle_bool_refl (v : Q) : Qle_bool v v = true.
Proof. apply Qle_bool_iff. lra. Qed.

Lemma rank2_bounds (a : list Q) (v : Q) :
  In v a -> 2 <= SciPy.rank2 a v <= 2 * Py.len a.
Proof.
  intros Hin. unfold SciPy.rank2.
  pose proof (count_pos (fun w => Qle_bool w v) a v Hin (Qle_bool_refl v)).
  pose proof (count_bounds (fun w => SciPy.Qlt_bool w v) a).
  pose proof (count_bounds (fun w => Qle_bool w v) a).
  assert (SciPy.Qlt_bool v v = false) as Hlt
    by (unfold SciPy.Qlt_bool; now rewrite Qle_bool_refl).
  pose proof (count_miss (fun w => SciPy.Qlt_bool w v) a v Hin Hlt).
  lia.
Qed.

Lemma rank2_equal (a : list Q) (v w : Q) :
  (v == w)%Q -> SciPy.rank2 a v = SciPy.rank2 a w.
Proof.
  intros E. unfold SciPy.rank2, SciPy.Qlt_bool.
  rewrite (count_ext (fun u => negb (Qle_bool v u))
                     (fun u => negb (Qle_bool w u)))
    by (intros u; now rewrite E).
  rewrite (count_ext (fun u => Qle_bool u v) (fun u => Qle_bool u w))
    by (intros u; now rewrite E).
  reflexivity.
Qed.

Lemma rank2_below (a : list Q) (v w : Q) :
  In v a -> In w a -> (v < w)%Q -> SciPy.rank2 a v < SciPy.rank2 a w.
Proof.
  intros Hv Hw Hlt. unfold SciPy.rank2.
  assert (SciPy.count (fun u => Qle_bool u v) a
          <= SciPy.count (fun u => SciPy.Qlt_bool u w) a) as H1.
  { apply count_mono. intros u Hu. apply Qle_bool_iff in Hu.
    unfold SciPy.Qlt_bool. destruct (Qle_bool w u) eqn:E; [| reflexivity].
    apply Qle_bool_iff in E. lra. }
  assert (SciPy.count (fun u => SciPy.Qlt_bool u v) a
          <= SciPy.count (fun u => Qle_bool u v) a) as H2.
  { apply count_mono. intros u Hu. unfold SciPy.Qlt_bool in Hu.
    apply Qle_bool_iff. destruct (Qle_bool v u) eqn:E; [discriminate |].
    apply Qlt_le_weak, Qnot_le_lt. intros A. apply Qle_bool_iff in A.
    congruence. }
  assert (SciPy.count (fun u => Qle_bool u v) a
          <= SciPy.count (fun u => Qle_bool u w) a) as H3.
  { apply count_mono. intros u Hu. apply Qle_bool_iff in Hu.
    apply Qle_bool_iff. lra. }
  (* [w] itself is at most [w] and not below [w] *)
  assert (SciPy.count (fun u => SciPy.Qlt_bool u w) a + 1
          <= SciPy.count (fun u => Qle_bool u w) a) as H4.
  { clear H1 H2 H3 Hv. induction a as [| u a IH]; [destruct Hw |].
    cbn [SciPy.count].
    assert (SciPy.count (fun u => SciPy.Qlt_bool u w) a
            <= SciPy.count (fun u => Qle_bool u w) a) as Hm.
    { apply count_mono. intros x Hx. unfold SciPy.Qlt_bool in Hx.
      apply Qle_bool_iff. destruct (Qle_bool w x) eqn:E; [discriminate |].
      apply Qlt_le_weak, Qnot_le_lt. intros A. apply Qle_bool_iff in A.
      congruence. }
    destruct Hw as [-> | Hw].
    - unfold SciPy.Qlt_bool at 1. rewrite Qle_bool_refl. cbn [negb]. lia.
    - specialize (IH Hw).
      destruct (SciPy.Qlt_bool u w) eqn:E1, (Qle_bool u w) eqn:E2; try lia.
      unfold SciPy.Qlt_bool in E1. exfalso.
      destruct (Qle_bool w u) eqn:E3; [discriminate |].
      bool_to_prop. lra. }
  lia.
Qed.

(** X16: every rank that [get_ranks] returns lies between 1 and the
    number of ranks. *)
Theorem X16_ranks_in_range (argsort : list Q -> list nat)
    (xs ys ranks : list Q) :
  get_ranks argsort xs ys = inr ranks ->
  Forall (fun rk => (1 <= rk <= inject_Z (Py.len ranks))%Q) ranks.
Proof.
  intros H. destruct (get_ranks_inr _ _ _ _ H) as [-> _].
  rewrite rankdata_len. unfold SciPy.rankdata.
  apply Forall_forall. intros rk Hin. apply in_map_iff in Hin as [v [<- Hv]].
  pose proof (rank2_bounds _ v Hv) as [B1 B2].
  unfold Qle, inject_Z. cbn [Qnum Qden]. lia.
Qed.

Lemma X16_ranks_in_range_witness :
  Forall (fun rk =>
            (1 <= rk
             <= inject_Z (Py.len (SciPy.rankdata
                                    (ranked (insertion_argsort false)
                                            xs9 ys_tied))))%Q)
         (SciPy.rankdata (ranked (insertion_argsort false) xs9 ys_tied)).
Proof.
  apply (X16_ranks_in_range (insertion_argsort false) xs9 ys_tied).
  vm_compute. reflexivity.
Defined.

(** X17: the ranks reverse the order of the ys: of two points, the one
    with the greater y has the smaller rank, and points with equal y
    have equal ranks. *)
Theorem X17_ranks_reverse_order (argsort : list Q -> list nat)
    (xs ys ranks : list Q) (i j : nat) :
  get_ranks argsort xs ys = inr ranks ->
  (i < length ranks)%nat -> (j < length ranks)%nat ->
  let sorted_ys := reorder ys (argsort xs) in
  ((nth i sorted_ys 0 < nth j sorted_ys 0)%Q ->
   (nth j ranks 0 < nth i ranks 0)%Q) /\
  ((nth i sorted_ys 0 == nth j sorted_ys 0)%Q ->
   (nth i ranks 0 == nth j ranks 0)%Q).
Proof.
  intros H Hi Hj sorted_ys.
  destruct (get_ranks_inr _ _ _ _ H) as [-> [Hl _]].
  assert (length (ranked argsort xs ys) = length (argsort xs)) as Ha
    by (unfold ranked, reorder; now rewrite !length_map).
  rewrite Hl in Hi, Hj.
  rewrite !nth_rankdata by lia. unfold ranked. fold sorted_ys.
  rewrite !nth_opp.
  assert (length sorted_ys = length (argsort xs)) as Hs
    by (unfold sorted_ys, reorder; now rewrite length_map).
  assert (forall k, (k < length (argsort xs))%nat ->
                    In (- nth k sorted_ys 0)%Q (map Qopp sorted_ys)) as Hin.
  { intros k Hk. apply in_map, nth_In. lia. }
  split; intros Hy.
  - pose proof (rank2_below (map Qopp sorted_ys) _ _ (Hin j Hj) (Hin i Hi)
                  ltac:(lra)) as Hr.
    unfold Qlt. cbn [Qnum Qden]. lia.
  - rewrite (rank2_equal (map Qopp sorted_ys) (- nth i sorted_ys 0%Q)%Q
                         (- nth j sorted_ys 0%Q)%Q) by (now rewrite Hy).
    reflexivity.
Qed.

Lemma X17_ranks_reverse_order_witness :
  let sorted_ys := reorder ys_tied (insertion_argsort false xs9) in
  let ranks := SciPy.rankdata (map Qopp sorted_ys) in
  ((nth 4 sorted_ys 0 < nth 3 sorted_ys 0)%Q ->
   (nth 3 ranks 0 < nth 4 ranks 0)%Q) /\
  ((nth 4 sorted_ys 0 == nth 3 sorted_ys 0)%Q ->
   (nth 4 ranks 0 == nth 3 ranks 0)%Q).
Proof.
  apply (X17_ranks_reverse_order (insertion_argsort false) xs9 ys_tied
           (SciPy.rankdata
              (map Qopp (reorder ys_tied (insertion_argsort false xs9))))
           4 3).
  - vm_compute. reflexivity.
  - vm_compute. lia.
  - vm_compute. lia.
Defined.

(** ** The indicators as functions of the order of the ys *)

Lemma take_map (f : Q -> Q) (a : list Q) (idx : list nat) :
  NumPy.take (map f a) idx
  = match NumPy.take a idx with
    | inl e => inl e
    | inr vs => inr (map f vs)
    end.
Proof.
  induction idx as [| i idx IH]; simpl; [reflexivity |].
  rewrite nth_error_map. destruct (nth_error a i) as [v |]; simpl;
    [| unfold Py.len; now rewrite length_map].
  rewrite IH. destruct (NumPy.take a idx); reflexivity.
Qed.

(** [rankdata] sees the order of the values only. *)
Lemma rankdata_order (h1 h2 : Q -> Q) (l : list Q) :
  (forall v w, Qle_bool (h1 v) (h1 w) = Qle_bool (h2 v) (h2 w)) ->
  SciPy.rankdata (map h1 l) = SciPy.rankdata (map h2 l).
Proof.
  intros H. unfold SciPy.rankdata. rewrite !map_map. apply map_ext.
  intros u. f_equal. unfold SciPy.rank2, SciPy.Qlt_bool. rewrite !count_map.
  rewrite (count_ext (fun w => negb (Qle_bool (h1 u) (h1 w)))
                     (fun w => negb (Qle_bool (h2 u) (h2 w))))
    by (intros w; now rewrite H).
  rewrite (count_ext (fun w => Qle_bool (h1 w) (h1 u))
                     (fun w => Qle_bool (h2 w) (h2 u)))
    by (intros w; apply H).
  reflexivity.
Qed.

Lemma get_ranks_order (argsort : list Q -> list nat) (f : Q -> Q)
    (xs ys : list Q) :
  (forall a b, Qle_bool (f a) (f b) = Qle_bool a b) ->
  get_ranks argsort xs (map f ys) = get_ranks argsort xs ys.
Proof.
  intros Hf. unfold get_ranks.
  destruct (NumPy.take xs (argsort xs)) as [e | xs']; [reflexivity |]. simpl.
  rewrite take_map. destruct (NumPy.take ys (argsort xs)) as [e | vs];
    [reflexivity |].
  simpl. unfold Py.ret. f_equal. rewrite map_map.
  apply (rankdata_order (fun v => (- f v)%Q) Qopp).
  intros v w. now rewrite !Qle_bool_opp.
Qed.

Lemma affine_order (a b : Q) :
  Qle_bool (2 * a + 1) (2 * b + 1) = Qle_bool a b.
Proof.
  destruct (Qle_bool a b) eqn:E.
  - apply Qle_bool_iff. apply Qle_bool_iff in E. lra.
  - destruct (Qle_bool (2 * a + 1) (2 * b + 1)) eqn:E'; [| reflexivity].
    apply Qle_bool_iff in E'.
    assert (a <= b)%Q as H by lra. apply Qle_bool_iff in H. congruence.
Qed.

(** X18: the result depends on the ys through their order only: passing
    all ys through a function that keeps the order (a change of unit, a
    shift, a logarithm) changes no component of the result, and no error
    either. *)
Theorem X18_order_of_ys_only (argsort : list Q -> list nat) (f : Q -> Q)
    (xs ys : list Q) :
  (forall a b, Qle_bool (f a) (f b) = Qle_bool a b) ->
  check_mon_conj argsort xs (map f ys) = check_mon_conj argsort xs ys.
Proof.
  intros Hf. unfold check_mon_conj.
  now rewrite (get_ranks_order argsort f xs ys Hf).
Qed.

Lemma X18_order_of_ys_only_witness :
  check_mon_conj (insertion_argsort false) xs9
                 (map (fun q => 2 * q + 1)%Q ys_tied)
  = check_mon_conj (insertion_argsort false) xs9 ys_tied.
Proof.
  apply (X18_order_of_ys_only (insertion_argsort false)
           (fun q => 2 * q + 1)%Q xs9 ys_tied).
  apply affine_order.
Defined.

(** X21: when the xs come strictly increasing, sorting moves nothing:
    with as many ys as xs the ranks are those of the ys as given,
    [rankdata (- ys)], whatever the values of the xs. *)
Theorem X21_sorted_input (argsort : list Q -> list nat) (xs ys : list Q) :
  NumPy.argsort_contract argsort ->
  strictly_increasing xs ->
  length xs = length ys ->
  get_ranks argsort xs ys = inr (SciPy.rankdata (map Qopp ys)).
Proof.
  intros Hc Hinc Hlen. rewrite (get_ranks_ok argsort Hc) by lia.
  unfold ranked. rewrite (sorts_increasing xs _ Hinc (Hc xs)), Hlen.
  now rewrite reorder_seq.
Qed.

Lemma X21_sorted_input_witness :
  get_ranks (insertion_argsort false) xs9 ys_tied
  = inr (SciPy.rankdata (map Qopp ys_tied)).
Proof.
  apply (X21_sorted_input (insertion_argsort false) xs9 ys_tied
           (insertion_argsort_contract false) xs9_increasing eq_refl).
Defined.

Lemma reorder_opp (ys : list Q) (idx : list nat) :
  reorder (map Qopp ys) idx = map Qopp (reorder ys idx).
Proof.
  unfold reorder. rewrite map_map. apply map_ext. intros i. apply nth_opp.
Qed.

Lemma pairs_opp_single (v w : Q) : pairs (- v) [(- w)%Q] = pairs w [v].
Proof.
  unfold pairs, SciPy.Qlt_bool. cbn [SciPy.count].
  now rewrite !Qle_bool_opp.
Qed.

Lemma pairs_opp (v : Q) (a : list Q) :
  pairs (- v) (map Qopp a) = Zsum (fun w => pairs w [v]) a.
Proof.
  induction a as [| w a IH]; [reflexivity |].
  cbn [map Zsum]. rewrite pairs_cons, IH, pairs_opp_single. reflexivity.
Qed.

(** Negating the values mirrors the ranks: rank r becomes n + 1 - r. *)
Lemma rank2_mirror (a : list Q) (v : Q) :
  SciPy.rank2 (map Qopp a) (- v) = 2 * Py.len a + 2 - SciPy.rank2 a v.
Proof.
  rewrite !rank2_pairs, pairs_opp. pose proof (pairs_column v a). lia.
Qed.

Lemma Zsum_mirror (c : Z) (f : Q -> Z) (l : list Q) :
  Zsum (fun v => c - f v) l = c * Py.len l - Zsum f l.
Proof.
  unfold Py.len. induction l as [| v l IH]; cbn [Zsum length]; lia.
Qed.

Lemma head2_tail2_mirror (a : list Q) (p : Z) :
  0 <= p <= Py.len a ->
  head2 (map Qopp a) p - tail2 (map Qopp a) p = - (head2 a p - tail2 a p).
Proof.
  intros Hp. unfold head2, tail2.
  assert (Py.len (map Qopp a) = Py.len a) as ->
    by (unfold Py.len; now rewrite length_map).
  rewrite firstn_map, skipn_map, !Zsum_map.
  rewrite !(Zsum_ext (fun v => SciPy.rank2 (map Qopp a) (- v))
                     (fun v => (2 * Py.len a + 2) - SciPy.rank2 a v))
    by (intros; apply rank2_mirror).
  rewrite !Zsum_mirror.
  assert (Py.len (firstn (Z.to_nat p) a) = p) as ->
    by (unfold Py.len in *; rewrite length_firstn; lia).
  assert (Py.len (skipn (Z.to_nat (Py.len a - p)) a) = p) as ->
    by (unfold Py.len in *; rewrite length_skipn; lia).
  lia.
Qed.

(** The value of a rate rounded to hundredths. *)
Lemma round2_value (q : Q) :
  (NumPy.float2_Q (NumPy.round2 q)
   == inject_Z (Py.round (q * 100)) * (1 # 100))%Q.
Proof.
  destruct (round_near (q * 100)) as [Rlo Rhi].
  unfold NumPy.float2_Q, NumPy.round2.
  cbn [NumPy.f2_neg NumPy.f2_hundredths].
  set (k := Py.round (q * 100)) in *.
  assert (forall z, (z # 100 == inject_Z z * (1 # 100))%Q) as Hz
    by (intros z; unfold Qeq, Qmult, inject_Z; cbn [Qnum Qden]; lia).
  destruct (Qle_bool 0 q) eqn:E; cbn [negb].
  - apply Qle_bool_iff in E.
    assert (inject_Z (-1) < inject_Z k)%Q as K
      by (change (inject_Z (-1)) with (- (1))%Q; lra).
    rewrite <- Zlt_Qlt in K. rewrite Z.abs_eq by lia. apply Hz.
  - assert (q < 0)%Q as E'.
    { apply Qnot_le_lt. intros A. apply Qle_bool_iff in A. congruence. }
    assert (inject_Z k < inject_Z 1)%Q as K
      by (change (inject_Z 1) with 1%Q; lra).
    rewrite <- Zlt_Qlt in K. rewrite Z.abs_neq by lia.
    rewrite Z.opp_involutive. apply Hz.
Qed.

(** X19: turning the ys upside down (every y replaced by - y) turns the
    result around: the difference and the rate change their sign, the
    standard deviation stays. *)
Theorem X19_negated_ys (argsort : list Q -> list nat) (xs ys : list Q)
    (d s : Z) (r : NumPy.float2) :
  NumPy.argsort_contract argsort ->
  length xs = length ys ->
  check_mon_conj argsort xs ys = inr (d, s, r) ->
  exists r',
    check_mon_conj argsort xs (map Qopp ys) = inr (- d, s, r') /\
    (NumPy.float2_Q r' == - NumPy.float2_Q r)%Q /\
    NumPy.f2_hundredths r' = NumPy.f2_hundredths r.
Proof.
  intros Hc Hlen H. pose proof (check_inr_len _ _ _ _ H) as HN.
  destruct (partition_size _ HN) as [Hp3 Hp2].
  destruct (raw_indicators_ok argsort Hc xs ys ltac:(lia) HN)
    as [i [Hi [Hf Hs]]].
  destruct (raw_indicators_ok argsort Hc xs (map Qopp ys)
              ltac:(rewrite length_map; lia) HN)
    as [i' [Hi' [Hf' Hs']]].
  cbv zeta in *.
  set (p := Py.round (inject_Z (Py.len xs) / 3)) in *.
  assert (ranked argsort xs (map Qopp ys) = map Qopp (ranked argsort xs ys))
    as Ea by (unfold ranked; now rewrite reorder_opp).
  rewrite Ea in Hf'.
  rewrite head2_tail2_mirror in Hf'
    by (rewrite (ranked_len argsort Hc); lia).
  set (z := head2 (ranked argsort xs ys) p - tail2 (ranked argsort xs ys) p)
    in *.
  assert (fst i' == - fst i)%Q as Ef.
  { rewrite Hf, Hf'. unfold Qeq, Qopp. cbn [Qnum Qden]. lia. }
  assert (snd i' == - snd i)%Q as Es.
  { rewrite Hs, Hs', Ef. unfold Qdiv. ring. }
  rewrite (check_mon_conj_raw argsort xs ys HN), Hi in H. simpl in H.
  injection H as Hd Hstd Hr.
  rewrite (check_mon_conj_raw argsort xs (map Qopp ys) HN), Hi'. simpl.
  fold p. fold p in Hstd.
  exists (NumPy.round2 (snd i')). split; [| split].
  - unfold Py.ret. rewrite (int_proper _ _ Ef), int_opp, Hd, Hstd.
    reflexivity.
  - rewrite <- Hr, !round2_value.
    assert (snd i' * 100 == - (snd i * 100))%Q as E100 by (rewrite Es; ring).
    rewrite (round_proper _ _ E100), round_opp, inject_Z_opp. ring.
  - rewrite <- Hr. cbn [NumPy.round2 NumPy.f2_hundredths].
    assert (snd i' * 100 == - (snd i * 100))%Q as E100 by (rewrite Es; ring).
    rewrite (round_proper _ _ E100), round_opp. apply Z.abs_opp.
Qed.

Lemma X19_negated_ys_witness :
  exists r',
    check_mon_conj (insertion_argsort false) xs9 (map Qopp ys_tied)
    = inr (- -17, 7, r') /\
    (NumPy.float2_Q r' == - NumPy.float2_Q (NumPy.Float2 true 97))%Q /\
    NumPy.f2_hundredths r' = NumPy.f2_hundredths (NumPy.Float2 true 97).
Proof.
  apply (X19_negated_ys (insertion_argsort false) xs9 ys_tied
           (-17) 7 (NumPy.Float2 true 97)
           (insertion_argsort_contract false) eq_refl).
  vm_compute. reflexivity.
Defined.

Lemma in_firstn {A : Type} (n : nat) (l : list A) (v : A) :
  In v (firstn n l) -> In v l.
Proof.
  intros H. rewrite <- (firstn_skipn n l). apply in_or_app. now left.
Qed.

Lemma in_skipn {A : Type} (n : nat) (l : list A) (v : A) :
  In v (skipn n l) -> In v l.
Proof.
  intros H. rewrite <- (firstn_skipn n l). apply in_or_app. now right.
Qed.

Lemma rank2_all_equal (a : list Q) (v : Q) :
  Forall (fun w => (w == v)%Q) a -> SciPy.rank2 a v = Py.len a + 1.
Proof.
  unfold SciPy.rank2, Py.len, SciPy.Qlt_bool.
  induction 1 as [| w a Hw _ IH]; [reflexivity |].
  cbn [SciPy.count length].
  assert (Qle_bool w v = true) as -> by (apply Qle_bool_iff; lra).
  assert (Qle_bool v w = true) as -> by (apply Qle_bool_iff; lra).
  cbn [negb]. lia.
Qed.

(** X20: when all ys are equal, every point has the same rank and the
    result is (0, std, 0.0). *)
Theorem X20_constant_ys (argsort : list Q -> list nat) (xs ys : list Q)
    (c : Q) :
  NumPy.argsort_contract argsort ->
  length xs = length ys ->
  9 <= Py.len xs ->
  Forall (fun y => (y == c)%Q) ys ->
  exists s,
    check_mon_conj argsort xs ys = inr (0, s, NumPy.Float2 false 0).
Proof.
  intros Hc Hlen HN Hall.
  destruct (partition_size _ HN) as [Hp3 Hp2].
  destruct (raw_indicators_ok argsort Hc xs ys ltac:(lia) HN)
    as [i [Hi [Hf Hs]]].
  cbv zeta in *.
  set (p := Py.round (inject_Z (Py.len xs) / 3)) in *.
  set (a := ranked argsort xs ys) in *.
  pose proof (ranked_len argsort Hc xs ys) as HL. fold a in HL.
  assert (Forall (fun w => (w == - c)%Q) a) as Ha.
  { unfold a, ranked. apply Forall_map.
    apply (Permutation_Forall
             (Permutation_sym (reorder_perm ys (argsort xs)
                                 ltac:(rewrite <- Hlen; apply (Hc xs))))).
    eapply Forall_impl; [| exact Hall]. simpl. intros y Hy. now rewrite Hy. }
  assert (forall l, incl l a ->
                    Zsum (SciPy.rank2 a) l = (Py.len a + 1) * Py.len l) as Hsum.
  { intros l Hl.
    rewrite (Zsum_ext (SciPy.rank2 a) (fun _ => Py.len a + 1)).
    - apply Zsum_const.
    - intros v Hv. rewrite Forall_forall in Ha.
      rewrite (rank2_equal a v (- c)) by (apply Ha, Hl, Hv).
      apply rank2_all_equal. apply Forall_forall, Ha. }
  assert (head2 a p = tail2 a p) as Hz.
  { unfold head2, tail2.
    rewrite (Hsum (firstn _ a))
      by (intros v Hv; eapply in_firstn; eassumption).
    rewrite (Hsum (skipn _ a))
      by (intros v Hv; eapply in_skipn; eassumption).
    f_equal. unfold Py.len in *. rewrite length_firstn, length_skipn. lia. }
  rewrite Hz, Z.sub_diag in Hf.
  assert (fst i == inject_Z 0)%Q as Ef by (rewrite Hf; reflexivity).
  assert (snd i == 0)%Q as Es.
  { rewrite Hs, Hf. unfold Qdiv. apply Qmult_0_l. }
  rewrite (check_mon_conj_raw argsort xs ys HN), Hi. simpl.
  eexists. unfold Py.ret. rewrite (int_of_Z 0 _ Ef). do 3 f_equal.
  unfold NumPy.round2.
  assert (Qle_bool 0 (snd i) = true) as -> by (apply Qle_bool_iff; lra).
  assert (snd i * 100 == 0)%Q as E100 by (rewrite Es; reflexivity).
  rewrite (round_proper _ _ E100). reflexivity.
Qed.

Lemma X20_constant_ys_witness :
  exists s,
    check_mon_conj (insertion_argsort false) xs9 (repeat (4 # 1)%Q 9)
    = inr (0, s, NumPy.Float2 false 0).
Proof.
  apply (X20_constant_ys (insertion_argsort false) xs9 (repeat (4 # 1)%Q 9)
           (4 # 1)%Q (insertion_argsort_contract false) eq_refl).
  - vm_compute. discriminate.
  - repeat constructor.
Defined.

(** ** The order of the input pairs *)

Lemma FOP_perm {A : Type} (R : A -> A -> Prop) (l l' : list A) :
  (forall a b, R a b -> R b a) ->
  Permutation l l' -> ForallOrdPairs R l -> ForallOrdPairs R l'.
Proof.
  intros sym HP. induction HP as [| x l l' HP IH | x y l | l l' l'' _ IH1 _ IH2];
    intros H.
  - exact H.
  - inversion H as [| ? ? Hx Hl]; subst. constructor.
    + now apply (Permutation_Forall HP).
    + now apply IH.
  - inversion H as [| ? ? Hy Hl]; subst.
    inversion Hy as [| ? ? Hyx Hyl]; subst.
    inversion Hl as [| ? ? Hxl Hll]; subst.
    constructor; [constructor; [now apply sym | exact Hxl] |].
    now constructor.
  - auto.
Qed.

Lemma sorted_unique {A : Type} (R : A -> A -> Prop) (l1 l2 : list A) :
  (forall a b, R a b -> R b a -> a = b) ->
  StronglySorted R l1 -> StronglySorted R l2 -> Permutation l1 l2 -> l1 = l2.
Proof.
  intros asym H1. revert l2.
  induction H1 as [| a l1 Hs IH Ha]; intros l2 H2 HP.
  - now apply Permutation_nil in HP.
  - destruct H2 as [| b l2 Hs2 Hb].
    + apply Permutation_sym, Permutation_nil in HP. discriminate.
    + assert (a = b) as <-.
      { assert (In a (b :: l2)) as Hin1
          by (apply (Permutation_in _ HP), in_eq).
        assert (In b (a :: l1)) as Hin2
          by (apply (Permutation_in _ (Permutation_sym HP)), in_eq).
        rewrite Forall_forall in Ha, Hb.
        destruct Hin1 as [-> | Hin1]; [reflexivity |].
        destruct Hin2 as [-> | Hin2]; [reflexivity |].
        apply asym; auto. }
      f_equal. apply IH; [exact Hs2 |].
      now apply Permutation_cons_inv in HP.
Qed.

Lemma sorted_strictly (l : list (Q * Q)) :
  StronglySorted (fun a b => (fst a <= fst b)%Q) l ->
  distinct_x l ->
  StronglySorted (fun a b => (fst a < fst b)%Q) l.
Proof.
  unfold distinct_x. induction 1 as [| a l Hs IH Ha]; intros Hd;
    constructor; inversion Hd as [| ? ? Hda Hdl]; subst.
  - now apply IH.
  - rewrite Forall_forall in *. intros b Hb.
    specialize (Ha b Hb). specialize (Hda b Hb). simpl in *.
    destruct (Qlt_le_dec (fst a) (fst b)) as [| Hle]; [assumption |].
    exfalso. apply Hda. lra.
Qed.

(** The pairs in the order [get_ranks] gives them. *)
Lemma sorted_pairs (argsort : list Q -> list nat) (xs ys : list Q) :
  NumPy.argsort_contract argsort ->
  length xs = length ys ->
  let L := combine (reorder xs (argsort xs)) (reorder ys (argsort xs)) in
  Permutation L (combine xs ys) /\
  StronglySorted (fun a b => (fst a <= fst b)%Q) L /\
  map snd L = reorder ys (argsort xs).
Proof.
  intros Hc Hlen L. destruct (Hc xs) as [HP HS]. unfold L.
  rewrite combine_reorder. split; [| split].
  - rewrite <- (pairs_seq xs ys Hlen). now apply Permutation_map.
  - clear HP. induction HS as [| i idx HS IH Hi]; simpl; constructor.
    + exact IH.
    + apply Forall_map. exact Hi.
  - rewrite map_map. reflexivity.
Qed.

(** X22: when no two points share their x, the order in which the points
    are given does not matter: any rearrangement of the pairs gives the
    same result. *)
Theorem X22_order_of_points (argsort : list Q -> list nat)
    (xs ys xs' ys' : list Q) :
  NumPy.argsort_contract argsort ->
  length xs = length ys ->
  length xs' = length ys' ->
  Permutation (combine xs ys) (combine xs' ys') ->
  distinct_x (combine xs ys) ->
  check_mon_conj argsort xs ys = check_mon_conj argsort xs' ys'.
Proof.
  intros Hc Hlen Hlen' HP Hd.
  destruct (sorted_pairs argsort xs ys Hc Hlen) as [P1 [S1 M1]].
  destruct (sorted_pairs argsort xs' ys' Hc Hlen') as [P2 [S2 M2]].
  cbv zeta in *.
  set (L := combine (reorder xs (argsort xs)) (reorder ys (argsort xs))) in *.
  set (L' := combine (reorder xs' (argsort xs'))
                     (reorder ys' (argsort xs'))) in *.
  assert (forall a b : Q * Q, ~ (fst a == fst b)%Q -> ~ (fst b == fst a)%Q)
    as sym by (intros a b H E; apply H; now symmetry).
  assert (Permutation L L') as PL
    by (rewrite P1, HP; now symmetry).
  assert (distinct_x L) as D1
    by (apply (FOP_perm _ _ _ sym (Permutation_sym P1) Hd)).
  assert (distinct_x L') as D2 by (apply (FOP_perm _ _ _ sym PL D1)).
  assert (L = L') as EL.
  { apply (sorted_unique (fun a b => (fst a < fst b)%Q)).
    - intros a b A B. lra.
    - now apply sorted_strictly.
    - now apply sorted_strictly.
    - exact PL. }
  assert (length xs = length xs') as EN.
  { apply Permutation_length in HP. rewrite !length_combine in HP. lia. }
  unfold check_mon_conj, Py.len. rewrite EN.
  rewrite (get_ranks_ok argsort Hc xs ys) by lia.
  rewrite (get_ranks_ok argsort Hc xs' ys') by lia.
  unfold ranked. now rewrite <- M1, <- M2, EL.
Qed.

Lemma X22_order_of_points_witness :
  check_mon_conj (insertion_argsort false) xs9 ys_tied
  = check_mon_conj (insertion_argsort false) (rev xs9) (rev ys_tied).
Proof.
  apply (X22_order_of_points (insertion_argsort false)
           xs9 ys_tied (rev xs9) (rev ys_tied)
           (insertion_argsort_contract false) eq_refl eq_refl).
  - change (combine (rev xs9) (rev ys_tied)) with (rev (combine xs9 ys_tied)).
    apply Permutation_rev.
  - unfold distinct_x.
    repeat (constructor;
            [repeat (constructor; [intros H; vm_compute in H; discriminate H |]);
             constructor |]).
    constructor.
Defined.

(** ** The written integers *)

Lemma read_str_int (z : Z) : read_int (Py.str_int z) = Some z.
Proof.
  unfold read_int, Py.str_int. rewrite NilZero.isi.
  - now rewrite DecimalZ.of_to.
  - destruct z as [| p | p]; simpl; try discriminate.
    intros H. injection H as H. now apply Unsigned.to_uint_nonnil in H.
  - destruct z as [| p | p]; simpl; try discriminate.
    intros H. injection H as H. now apply Unsigned.to_uint_nonnil in H.
Qed.

(** X23: the line that [save_result] writes splits at blanks into three
    pieces; the first two read back as exactly the difference and the
    standard deviation of the result, the third is the printed rate. *)
Theorem X23_integers_read_back (d s : Z) (r : NumPy.float2) :
  exists a b,
    Py.split (result_line (d, s, r)) = [a; b; NumPy.str_float2 r] /\
    read_int a = Some d /\ read_int b = Some s.
Proof.
  exists (Py.str_int d), (Py.str_int s).
  split; [| split; apply read_str_int].
  apply (three_numbers_line (Py.str_int d) (Py.str_int s) (NumPy.str_float2 r));
    auto using str_int_chars, str_float2_chars, str_float2_nonempty,
               int_literal_nonempty, str_int_literal.
Qed.
